(** * readadat: the SomaLogic ADAT reader [readAdat] of [readadat.py]

    The reader makes one pass over the rows that [csv.reader] yields
    (each row a list of tab-separated fields), threading the local
    variables of [readAdat] through the loop, and then assembles two
    pandas tables.  The loop body is embedded as [body], the whole pass
    as [loop], the statements after the loop as [finalize], and the
    function as [readAdat].  Python exceptions are the [Raise] results
    of a small error monad. *)

From Stdlib Require Import String Ascii List Bool Arith Lia.
From stdpp Require Import base option list strings gmap.
Import ListNotations.

Local Open Scope string_scope.
Local Open Scope list_scope.

(** ** Exceptions and the error monad *)

Inductive value_error :=
| NotInList (x : string)              (* list.index(x): x is not in list *)
| ColumnsMismatch (passed had : nat)  (* DataFrame(data, columns=...) *)
| LengthMismatch (expected got : nat) (* df.columns = ... *)
| NotAFloat (cell : string).          (* could not convert string to float *)

Inductive exn :=
| IndexError                 (* list index out of range *)
| KeyError (key : string)
| ValueError (why : value_error)
| TypeError.                 (* can only concatenate str to str *)

Inductive result (A : Type) :=
| Ok (a : A)
| Raise (e : exn).
Arguments Ok {A} a.
Arguments Raise {A} e.

#[global] Instance result_bind : MBind result := fun A B k m =>
  match m with
  | Ok a => k a
  | Raise e => Raise e
  end.

(** A comprehension whose element expression may raise. *)
Fixpoint mapM {A B} (f : A -> result B) (l : list A) : result (list B) :=
  match l with
  | [] => Ok []
  | x :: xs => y ← f x; ys ← mapM f xs; Ok (y :: ys)
  end.

(** ** Python list and dict primitives used by the reader *)

(** [row[i]] for a non-negative [i]. *)
Definition getitem {A} (l : list A) (i : nat) : result A :=
  match l !! i with
  | Some x => Ok x
  | None => Raise IndexError
  end.

(** [d[key]] on an entry of [adatVals] that may not have been set. *)
Definition dict_get {A} (key : string) (entry : option A) : result A :=
  match entry with
  | Some v => Ok v
  | None => Raise (KeyError key)
  end.

(** Position of the first occurrence, if any. *)
Fixpoint find_index (x : string) (l : list string) : option nat :=
  match l with
  | [] => None
  | y :: ys => if bool_decide (y = x) then Some 0 else S <$> find_index x ys
  end.

(** [l.index(x)]: raises ValueError when [x] is absent. *)
Definition list_index (x : string) (l : list string) : result nat :=
  match find_index x l with
  | Some i => Ok i
  | None => Raise (ValueError (NotInList x))
  end.

(** [[i for (i, v) in zip(vals, mask) if v]]: [zip] stops at the shorter
    list. *)
Fixpoint zip_filter {A} (vals : list A) (mask : list bool) : list A :=
  match vals, mask with
  | v :: vs, b :: bs => if b then v :: zip_filter vs bs else zip_filter vs bs
  | _, _ => []
  end.

(** Truth value of a string and of [colPassFlag] ([None] and the empty
    list are both false). *)
Definition truthy_str (s : string) : bool := negb (bool_decide (s = "")).

Definition truthy_flag (f : option (list bool)) : bool :=
  match f with
  | Some (_ :: _) => true
  | _ => false
  end.

(** ** pandas values and tables *)

Inductive float64_val :=
| NaN                       (* a missing cell converted to float *)
| FloatOf (lit : string)    (* float(lit), for a literal float() accepts *)
| FloatOfInt (n : nat).

Inductive value :=
| VStr (s : string)
| VNone
| VInt (n : nat)
| VFloat (x : float64_val).

Inductive dtype := object | float64.

#[global] Instance float64_val_eq_dec : EqDecision float64_val.
Proof. solve_decision. Defined.
#[global] Instance value_eq_dec : EqDecision value.
Proof. solve_decision. Defined.
#[global] Instance dtype_eq_dec : EqDecision dtype.
Proof. solve_decision. Defined.

(** A table: row labels, column labels, one dtype and one list of cells
    per column.  Every column holds one cell per row label. *)
Record DataFrame := mkDataFrame {
  df_index : list value;
  df_columns : list value;
  df_dtypes : list dtype;
  df_data : list (list value)
}.

Definition nrows (df : DataFrame) : nat := length (df_index df).
Definition ncols (df : DataFrame) : nat := length (df_columns df).

Definition RangeIndex (n : nat) : list value := map VInt (seq 0 n).

(** Width of a list of rows of unequal lengths. *)
Definition width {A} (rows : list (list A)) : nat :=
  foldr Nat.max 0 (map (@length A) rows).

(** Cell [j] of a row, [None] past its end (short rows are padded). *)
Definition cell_of (r : list string) (j : nat) : value :=
  match r !! j with
  | Some s => VStr s
  | None => VNone
  end.

Definition columns_of_rows (w : nat) (rows : list (list string))
  : list (list value) :=
  map (fun j => map (fun r => cell_of r j) rows) (seq 0 w).

(** [pd.DataFrame(data, index=index)] on a list of lists of strings. *)
Definition DataFrame_index (data : list (list string)) (index : list string)
  : DataFrame :=
  let w := width data in
  {| df_index := map VStr index;
     df_columns := RangeIndex w;
     df_dtypes := replicate w object;
     df_data := columns_of_rows w data |}.

(** [pd.DataFrame(data, columns=columns)] on a list of lists of strings:
    an empty list gives an empty table with the columns asked for;
    otherwise the width of the data must be the number of columns. *)
Definition DataFrame_columns (data : list (list string)) (columns : list string)
  : result DataFrame :=
  let w := width data in
  if bool_decide (data = []) || bool_decide (w = length columns) then
    Ok {| df_index := RangeIndex (length data);
          df_columns := map VStr columns;
          df_dtypes := replicate (length columns) object;
          df_data := columns_of_rows (length columns) data |}
  else Raise (ValueError (ColumnsMismatch (length columns) w)).

(** Row [i] of a table, across its columns. *)
Definition row_at (df : DataFrame) (i : nat) : list value :=
  map (fun col => default VNone (col !! i)) (df_data df).

(** Positions at which a label occurs. *)
Fixpoint positions_from (from : nat) (key : value) (l : list value) : list nat :=
  match l with
  | [] => []
  | x :: xs =>
      if bool_decide (x = key) then from :: positions_from (S from) key xs
      else positions_from (S from) key xs
  end.

(** What [for v in df.loc[key]] iterates over: the cells of the row when
    the label occurs once (a Series), the column labels when it occurs
    several times (a DataFrame); KeyError when it does not occur. *)
Definition loc_iter (df : DataFrame) (key : string) : result (list value) :=
  match positions_from 0 (VStr key) (df_index df) with
  | [] => Raise (KeyError key)
  | [i] => Ok (row_at df i)
  | _ :: _ :: _ => Ok (df_columns df)
  end.

(** ["SeqId." + v] *)
Definition str_add (s : string) (v : value) : result string :=
  match v with
  | VStr t => Ok (s +:+ t)
  | _ => Raise TypeError
  end.

(** [df.columns = labels] *)
Definition set_columns (df : DataFrame) (labels : list string) : result DataFrame :=
  if bool_decide (length labels = ncols df) then
    Ok {| df_index := df_index df;
          df_columns := map VStr labels;
          df_dtypes := df_dtypes df;
          df_data := df_data df |}
  else Raise (ValueError (LengthMismatch (ncols df) (length labels))).

(** *** Text that [float()] accepts

    Surrounding white space, an optional sign, then [inf], [infinity] or
    [nan] in any case, or a decimal number whose digit groups may be
    separated by single underscores. *)
Module PyFloat.

Definition is_digit (c : ascii) : bool :=
  let n := nat_of_ascii c in ((48 <=? n) && (n <=? 57))%nat.

Definition is_space (c : ascii) : bool :=
  let n := nat_of_ascii c in ((n =? 32) || ((9 <=? n) && (n <=? 13)))%nat.

Definition is_sign (c : ascii) : bool :=
  bool_decide (c = "+"%char) || bool_decide (c = "-"%char).

Definition is_e (c : ascii) : bool :=
  bool_decide (c = "e"%char) || bool_decide (c = "E"%char).

Definition lower (c : ascii) : ascii :=
  let n := nat_of_ascii c in
  if ((65 <=? n) && (n <=? 90))%nat then ascii_of_nat (n + 32) else c.

Inductive st :=
| Start | Int | IntUs | Dot0 | Frac0 | Frac | FracUs | Exp0 | Exp1 | Exp | ExpUs
| Bad.

Definition step (q : st) (c : ascii) : st :=
  match q with
  | Start => if is_digit c then Int
             else if bool_decide (c = "."%char) then Dot0 else Bad
  | Int => if is_digit c then Int
           else if bool_decide (c = "_"%char) then IntUs
           else if bool_decide (c = "."%char) then Frac0
           else if is_e c then Exp0 else Bad
  | IntUs => if is_digit c then Int else Bad
  | Dot0 => if is_digit c then Frac else Bad
  | Frac0 => if is_digit c then Frac else if is_e c then Exp0 else Bad
  | Frac => if is_digit c then Frac
            else if bool_decide (c = "_"%char) then FracUs
            else if is_e c then Exp0 else Bad
  | FracUs => if is_digit c then Frac else Bad
  | Exp0 => if is_digit c then Exp else if is_sign c then Exp1 else Bad
  | Exp1 => if is_digit c then Exp else Bad
  | Exp => if is_digit c then Exp
           else if bool_decide (c = "_"%char) then ExpUs else Bad
  | ExpUs => if is_digit c then Exp else Bad
  | Bad => Bad
  end.

Definition accepting (q : st) : bool :=
  match q with
  | Int | Frac0 | Frac | Exp => true
  | _ => false
  end.

Definition number (l : list ascii) : bool := accepting (fold_left step l Start).

Definition special (l : list ascii) : bool :=
  let w := string_of_list_ascii (map lower l) in
  bool_decide (w = "inf") || bool_decide (w = "infinity") || bool_decide (w = "nan").

Fixpoint lstrip (l : list ascii) : list ascii :=
  match l with
  | c :: cs => if is_space c then lstrip cs else l
  | [] => []
  end.

Definition strip (l : list ascii) : list ascii := rev (lstrip (rev (lstrip l))).

Definition unsigned (l : list ascii) : list ascii :=
  match l with
  | c :: cs => if is_sign c then cs else l
  | [] => []
  end.

(** A cell is a Python [str], held here as its UTF-8 encoding.  Before
    it parses, [float()] replaces every white-space character outside
    ASCII by a blank and every decimal digit of any script by its ASCII
    digit; any other character outside ASCII becomes ["?"], which no
    number contains.  The tables are those of Unicode 14.0 (Python 3.11).
    Bytes that encode no character stand for no [str]; they are read as
    U+FFFD. *)
Fixpoint utf8_decode (bytes : list N) : list N :=
  match bytes with
  | [] => []
  | b0 :: rest =>
      if (b0 <? 128)%N then b0 :: utf8_decode rest
      else if (b0 <? 192)%N then 65533%N :: utf8_decode rest
      else if (b0 <? 224)%N then
        match rest with
        | b1 :: rest1 =>
            ((b0 - 192) * 64 + (b1 - 128))%N :: utf8_decode rest1
        | _ => [65533%N]
        end
      else if (b0 <? 240)%N then
        match rest with
        | b1 :: b2 :: rest2 =>
            ((b0 - 224) * 4096 + (b1 - 128) * 64 + (b2 - 128))%N
            :: utf8_decode rest2
        | _ => [65533%N]
        end
      else
        match rest with
        | b1 :: b2 :: b3 :: rest3 =>
            ((b0 - 240) * 262144 + (b1 - 128) * 4096 + (b2 - 128) * 64
             + (b3 - 128))%N
            :: utf8_decode rest3
        | _ => [65533%N]
        end
  end.

(** White space outside ASCII. *)
Definition is_unicode_space (c : N) : bool :=
  ((c =? 133) || (c =? 160) || (c =? 5760)
   || (8192 <=? c) && (c <=? 8202)
   || (c =? 8232) || (c =? 8233) || (c =? 8239) || (c =? 8287)
   || (c =? 12288))%N.

(** The digit zero of every script outside ASCII; its nine successors
    are the digits one to nine. *)
Definition digit_zeros : list N :=
  [1632; 1776; 1984; 2406; 2534; 2662; 2790; 2918; 3046; 3174; 3302; 3430;
    3558; 3664; 3792; 3872; 4160; 4240; 6112; 6160; 6470; 6608; 6784; 6800;
    6992; 7088; 7232; 7248; 42528; 43216; 43264; 43472; 43504; 43600;
    44016; 65296; 66720; 68912; 69734; 69872; 69942; 70096; 70384; 70736;
    70864; 71248; 71360; 71472; 71904; 72016; 72784; 73040; 73120; 92768;
    92864; 93008; 120782; 120792; 120802; 120812; 120822; 123200; 123632;
    125264; 130032]%N.

Definition decimal (c : N) : option N :=
  match List.find (fun z => (z <=? c) && (c <? z + 10))%N digit_zeros with
  | Some z => Some (c - z)%N
  | None => None
  end.

Definition to_ASCII_char (c : N) : ascii :=
  if (c <? 127)%N then ascii_of_N c
  else if is_unicode_space c then " "%char
  else match decimal c with
       | Some d => ascii_of_N (48 + d)
       | None => "?"%char
       end.

Definition to_ASCII (s : string) : list ascii :=
  map to_ASCII_char (utf8_decode (map N_of_ascii (list_ascii_of_string s))).

Definition accepts (s : string) : bool :=
  let body := unsigned (strip (to_ASCII s)) in
  special body || number body.

End PyFloat.

(** [numpy] conversion of one object cell to float64. *)
Definition to_float64 (v : value) : result value :=
  match v with
  | VStr s =>
      if PyFloat.accepts s then Ok (VFloat (FloatOf s))
      else Raise (ValueError (NotAFloat s))
  | VNone => Ok (VFloat NaN)
  | VInt n => Ok (VFloat (FloatOfInt n))
  | VFloat x => Ok (VFloat x)
  end.

(** [df.astype(resetTypes)] where [resetTypes] maps every label in [keys]
    to ['float64']: each key must be a column label; the columns are
    converted one after the other, each from its first row down. *)
Definition astype_column (keys : list string) (lc : value * list value)
  : result (list value) :=
  if bool_decide (lc.1 ∈ map VStr keys) then mapM to_float64 lc.2 else Ok lc.2.

Definition astype_dtype (keys : list string) (ld : value * dtype) : dtype :=
  if bool_decide (ld.1 ∈ map VStr keys) then float64 else ld.2.

Definition astype (df : DataFrame) (keys : list string) : result DataFrame :=
  _ ← mapM (fun k => if bool_decide (VStr k ∈ df_columns df) then Ok tt
                     else Raise (KeyError k)) keys;
  cols ← mapM (astype_column keys) (zip (df_columns df) (df_data df));
  Ok {| df_index := df_index df;
        df_columns := df_columns df;
        df_dtypes := map (astype_dtype keys) (zip (df_columns df) (df_dtypes df));
        df_data := cols |}.

(** ** The reader's state *)

(** The dictionary [adatVals]: an entry is [None] until its key is set. *)
Record adatVals := mkAdatVals {
  Checksum : option string;
  Metadata : gmap string string;
  SampleAnnotNames : option (list string);
  SequenceAnnotNames : option (list string);
  SequenceData : option DataFrame;
  SampleAndIntensityData : option DataFrame
}.

(** The local variables of [readAdat] that the loop reads and writes. *)
Record locals := mkLocals {
  vals : adatVals;
  curSection : option string;
  sample_type_field_i : option nat;
  row_check_field_i : option nat;
  sampleAndIntensityData : list (list string);
  sequenceData : list (list string);
  sequenceDataIndex : list string;
  colPassFlag : option (list bool);
  line_count : nat
}.

Definition sectionTitles : gset string :=
  {[ "^HEADER"; "^COL_DATA"; "^ROW_DATA"; "^TABLE_BEGIN" ]}.

Definition init : locals :=
  {| vals := {| Checksum := None; Metadata := ∅; SampleAnnotNames := None;
                SequenceAnnotNames := None; SequenceData := None;
                SampleAndIntensityData := None |};
     curSection := None;
     sample_type_field_i := None;
     row_check_field_i := None;
     sampleAndIntensityData := [];
     sequenceData := [];
     sequenceDataIndex := [];
     colPassFlag := None;
     line_count := 0 |}.

Definition set_vals (f : adatVals -> adatVals) (st : locals) : locals :=
  {| vals := f (vals st); curSection := curSection st;
     sample_type_field_i := sample_type_field_i st;
     row_check_field_i := row_check_field_i st;
     sampleAndIntensityData := sampleAndIntensityData st;
     sequenceData := sequenceData st;
     sequenceDataIndex := sequenceDataIndex st;
     colPassFlag := colPassFlag st; line_count := line_count st |}.

Definition set_Checksum (v : string) (a : adatVals) : adatVals :=
  {| Checksum := Some v; Metadata := Metadata a;
     SampleAnnotNames := SampleAnnotNames a;
     SequenceAnnotNames := SequenceAnnotNames a;
     SequenceData := SequenceData a;
     SampleAndIntensityData := SampleAndIntensityData a |}.

Definition set_Metadata (k v : string) (a : adatVals) : adatVals :=
  {| Checksum := Checksum a; Metadata := <[k:=v]> (Metadata a);
     SampleAnnotNames := SampleAnnotNames a;
     SequenceAnnotNames := SequenceAnnotNames a;
     SequenceData := SequenceData a;
     SampleAndIntensityData := SampleAndIntensityData a |}.

Definition set_SampleAnnotNames (v : list string) (a : adatVals) : adatVals :=
  {| Checksum := Checksum a; Metadata := Metadata a;
     SampleAnnotNames := Some v;
     SequenceAnnotNames := SequenceAnnotNames a;
     SequenceData := SequenceData a;
     SampleAndIntensityData := SampleAndIntensityData a |}.

Definition set_SequenceAnnotNames (v : list string) (a : adatVals) : adatVals :=
  {| Checksum := Checksum a; Metadata := Metadata a;
     SampleAnnotNames := SampleAnnotNames a;
     SequenceAnnotNames := Some v;
     SequenceData := SequenceData a;
     SampleAndIntensityData := SampleAndIntensityData a |}.

Definition set_tables (s d : DataFrame) (a : adatVals) : adatVals :=
  {| Checksum := Checksum a; Metadata := Metadata a;
     SampleAnnotNames := SampleAnnotNames a;
     SequenceAnnotNames := SequenceAnnotNames a;
     SequenceData := Some s;
     SampleAndIntensityData := Some d |}.

Definition set_curSection (v : string) (st : locals) : locals :=
  {| vals := vals st; curSection := Some v;
     sample_type_field_i := sample_type_field_i st;
     row_check_field_i := row_check_field_i st;
     sampleAndIntensityData := sampleAndIntensityData st;
     sequenceData := sequenceData st;
     sequenceDataIndex := sequenceDataIndex st;
     colPassFlag := colPassFlag st; line_count := line_count st |}.

Definition set_field_is (i j : nat) (st : locals) : locals :=
  {| vals := vals st; curSection := curSection st;
     sample_type_field_i := Some i;
     row_check_field_i := Some j;
     sampleAndIntensityData := sampleAndIntensityData st;
     sequenceData := sequenceData st;
     sequenceDataIndex := sequenceDataIndex st;
     colPassFlag := colPassFlag st; line_count := line_count st |}.

Definition append_sample (r : list string) (st : locals) : locals :=
  {| vals := vals st; curSection := curSection st;
     sample_type_field_i := sample_type_field_i st;
     row_check_field_i := row_check_field_i st;
     sampleAndIntensityData := sampleAndIntensityData st ++ [r];
     sequenceData := sequenceData st;
     sequenceDataIndex := sequenceDataIndex st;
     colPassFlag := colPassFlag st; line_count := line_count st |}.

Definition append_sequence (name : string) (r : list string) (st : locals)
  : locals :=
  {| vals := vals st; curSection := curSection st;
     sample_type_field_i := sample_type_field_i st;
     row_check_field_i := row_check_field_i st;
     sampleAndIntensityData := sampleAndIntensityData st;
     sequenceData := sequenceData st ++ [r];
     sequenceDataIndex := sequenceDataIndex st ++ [name];
     colPassFlag := colPassFlag st; line_count := line_count st |}.

Definition set_colPassFlag (m : list bool) (st : locals) : locals :=
  {| vals := vals st; curSection := curSection st;
     sample_type_field_i := sample_type_field_i st;
     row_check_field_i := row_check_field_i st;
     sampleAndIntensityData := sampleAndIntensityData st;
     sequenceData := sequenceData st;
     sequenceDataIndex := sequenceDataIndex st;
     colPassFlag := Some m; line_count := line_count st |}.

(** [line_count += 1], the last statement of the loop body. *)
Definition next_line (st : locals) : locals :=
  {| vals := vals st; curSection := curSection st;
     sample_type_field_i := sample_type_field_i st;
     row_check_field_i := row_check_field_i st;
     sampleAndIntensityData := sampleAndIntensityData st;
     sequenceData := sequenceData st;
     sequenceDataIndex := sequenceDataIndex st;
     colPassFlag := colPassFlag st; line_count := S (line_count st) |}.

(** ** The reader *)

Definition is_PASS (val : string) : bool := bool_decide (val = "PASS").

(** The mask in force when [keepOnlyPasses and colPassFlag] holds. *)
Definition mask_of (f : option (list bool)) : list bool := default [] f.

Section reader.

Variables keepOnlyPasses keepOnlySamples : bool.

(** One of the two row filters: [enabled and field_i is not None], then
    the row is skipped when the field differs from [wanted]. *)
Definition skips (enabled : bool) (field_i : option nat) (wanted : string)
  (curSampleAnnotSlice : list string) : result bool :=
  if enabled then
    match field_i with
    | Some i =>
        cur ← getitem curSampleAnnotSlice i;
        Ok (bool_decide (cur ≠ wanted))
    | None => Ok false
    end
  else Ok false.

(** A row of the [^TABLE_BEGIN] section (lines 54-77).  A [continue]
    leaves the body before [line_count += 1]. *)
Definition table_row (st : locals) (row : list string) : result locals :=
  names ← dict_get "SampleAnnotNames" (SampleAnnotNames (vals st));
  let rowDataLen := length names in
  curColName ← getitem row rowDataLen;
  if truthy_str curColName then
    let curColAnnotSlice := drop (rowDataLen + 1) row in
    let st := append_sequence curColName curColAnnotSlice st in
    let st :=
      if keepOnlyPasses && bool_decide (curColName = "ColCheck")
      then set_colPassFlag (map is_PASS curColAnnotSlice) st
      else st in
    Ok (next_line st)
  else
    let curSampleAnnotSlice := take rowDataLen row in
    sampleAnnotNames ← dict_get "SampleAnnotNames" (SampleAnnotNames (vals st));
    if bool_decide (curSampleAnnotSlice ≠ sampleAnnotNames) then
      skip ← skips keepOnlySamples (sample_type_field_i st) "Sample"
               curSampleAnnotSlice;
      if (skip : bool) then Ok st
      else
        skip ← skips keepOnlyPasses (row_check_field_i st) "PASS"
                 curSampleAnnotSlice;
        if (skip : bool) then Ok st
        else
          let curSomaReadoutVals := drop (rowDataLen + 1) row in
          let curSomaReadoutVals :=
            if keepOnlyPasses && truthy_flag (colPassFlag st)
            then zip_filter curSomaReadoutVals (mask_of (colPassFlag st))
            else curSomaReadoutVals in
          Ok (next_line
                (append_sample (curSampleAnnotSlice ++ curSomaReadoutVals) st))
    else Ok (next_line st).

(** A row outside the table (lines 78-90). *)
Definition header_row (st : locals) (row : list string) : result locals :=
  row0 ← getitem row 0;
  if bool_decide (row0 ∈ sectionTitles) then
    Ok (next_line (set_curSection row0 st))
  else if bool_decide (curSection st = None) && bool_decide (row0 = "!Checksum")
  then
    row1 ← getitem row 1;
    Ok (next_line (set_vals (set_Checksum row1) st))
  else if bool_decide (curSection st = Some "^HEADER") then
    row1 ← getitem row 1;
    Ok (next_line (set_vals (set_Metadata row0 row1) st))
  else if bool_decide (curSection st = Some "^ROW_DATA")
          || bool_decide (curSection st = Some "^COL_DATA") then
    let nameOrType := row0 in
    let row := tail row in
    if bool_decide (curSection st = Some "^ROW_DATA")
       && bool_decide (nameOrType = "!Name") then
      i ← list_index "SampleType" row;
      j ← list_index "RowCheck" row;
      Ok (next_line (set_vals (set_SampleAnnotNames row) (set_field_is i j st)))
    else Ok (next_line st)
  else Ok (next_line st).

(** The loop body (lines 53-92). *)
Definition body (st : locals) (row : list string) : result locals :=
  if bool_decide (curSection st = Some "^TABLE_BEGIN") then table_row st row
  else header_row st row.

(** [for row in csv_reader: ...] *)
Fixpoint loop (st : locals) (rows : list (list string)) : result locals :=
  match rows with
  | [] => Ok st
  | row :: rest => st' ← body st row; loop st' rest
  end.

(** Lines 94-96: the accumulated column-annotation rows after the pass. *)
Definition filtered_sequenceData (st : locals) : list (list string) :=
  if keepOnlyPasses && truthy_flag (colPassFlag st)
  then map (fun r => zip_filter r (mask_of (colPassFlag st))) (sequenceData st)
  else sequenceData st.

(** What lines 94-105 build before the readouts are converted. *)
Record assembled := mkAssembled {
  a_vals : adatVals;
  a_sequenceData : DataFrame;
  a_seqIds : list string;
  a_sampleAndIntensityData : DataFrame
}.

Definition assemble (st : locals) : result assembled :=
  let sequenceData := DataFrame_index (filtered_sequenceData st)
                        (sequenceDataIndex st) in
  let adatVals := set_SequenceAnnotNames (sequenceDataIndex st) (vals st) in
  sampleAnnotNames ← dict_get "SampleAnnotNames" (SampleAnnotNames adatVals);
  SeqIdVals ← loc_iter sequenceData "SeqId";
  seqIds ← mapM (str_add "SeqId.") SeqIdVals;
  sequenceData ← set_columns sequenceData seqIds;
  let df_cols := sampleAnnotNames ++ seqIds in
  sampleAndIntensityData ←
    DataFrame_columns (sampleAndIntensityData st) df_cols;
  Ok {| a_vals := adatVals; a_sequenceData := sequenceData;
        a_seqIds := seqIds;
        a_sampleAndIntensityData := sampleAndIntensityData |}.

(** Lines 106-115. *)
Definition coerce (a : assembled) : result adatVals :=
  sampleAndIntensityData ← astype (a_sampleAndIntensityData a) (a_seqIds a);
  Ok (set_tables (a_sequenceData a) sampleAndIntensityData (a_vals a)).

Definition finalize (st : locals) : result adatVals :=
  a ← assemble st; coerce a.

Definition readAdat (rows : list (list string)) : result adatVals :=
  st ← loop init rows; finalize st.

End reader.

(** ** Sample files *)

Module Samples.

(** The minimal file of the specification: a two-protein table in which
    the second protein fails its column check. *)
Definition minimal : list (list string) :=
  [ ["!Checksum"; "abc123"];
    ["^HEADER"];
    ["!Title"; "demo"];
    ["^ROW_DATA"];
    ["!Name"; "SampleId"; "SampleType"; "RowCheck"];
    ["^TABLE_BEGIN"];
    [""; ""; ""; "SeqId"; "10-1"; "20-2"];
    [""; ""; ""; "ColCheck"; "PASS"; "FAIL"];
    ["s1"; "Sample"; "PASS"; ""; "1.5"; "2.5"] ].

(** The lines of [minimal] up to the table marker. *)
Definition heading : list (list string) := take 6 minimal.

(** A schema line that does not declare [RowCheck]. *)
Definition no_RowCheck : list (list string) :=
  [ ["^ROW_DATA"];
    ["!Name"; "SampleId"; "SampleType"] ].

(** A table that begins before any [!Name] line was seen. *)
Definition no_schema : list (list string) :=
  [ ["^HEADER"];
    ["!Title"; "demo"];
    ["^TABLE_BEGIN"] ].

(** A table without a [SeqId] row. *)
Definition no_SeqId : list (list string) :=
  heading ++
  [ [""; ""; ""; "Target"; "A"; "B"];
    ["s1"; "Sample"; "PASS"; ""; "1.5"; "2.5"] ].

(** A [ColCheck] row that carries no value. *)
Definition empty_ColCheck : list (list string) :=
  [ ["^ROW_DATA"];
    ["!Name"; "SampleType"; "RowCheck"];
    ["^TABLE_BEGIN"];
    [""; ""; "ColCheck"];
    [""; ""; "SeqId"; "x"];
    ["Sample"; "PASS"; ""; "1.5"] ].

(** A table in which the schema line is repeated. *)
Definition stray_header : list (list string) :=
  heading ++
  [ [""; ""; ""; "SeqId"; "10-1"; "20-2"];
    ["SampleId"; "SampleType"; "RowCheck"; ""; "0"; "0"];
    ["s1"; "Sample"; "PASS"; ""; "1.5"; "2.5"] ].


(** A [!Checksum] line inside the [^HEADER] section, and none before. *)
Definition late_Checksum : list (list string) :=
  [ ["^HEADER"];
    ["!Checksum"; "abc123"];
    ["^ROW_DATA"];
    ["!Name"; "SampleId"; "SampleType"; "RowCheck"];
    ["^TABLE_BEGIN"];
    [""; ""; ""; "SeqId"; "10-1"] ].

(** A sample row that comes before the [ColCheck] row. *)
Definition late_ColCheck : list (list string) :=
  heading ++
  [ [""; ""; ""; "SeqId"; "10-1"; "20-2"];
    ["s1"; "Sample"; "PASS"; ""; "1.5"; "2.5"];
    [""; ""; ""; "ColCheck"; "PASS"; "FAIL"];
    ["s2"; "Sample"; "PASS"; ""; "3.5"; "4.5"] ].

End Samples.

(** ** Reading the file by sections

    What the rows of a file are, independently of the reader's state:
    the section a row falls in, the schema declared by the [!Name] row
    of [^ROW_DATA], the rows after the [^TABLE_BEGIN] marker and their
    two kinds. *)

Definition is_title (row : list string) : bool :=
  match row with
  | row0 :: _ => bool_decide (row0 ∈ sectionTitles)
  | [] => false
  end.

(** The section in force after a row.  Nothing leaves the table. *)
Definition section_after (cur : option string) (row : list string)
  : option string :=
  if bool_decide (cur = Some "^TABLE_BEGIN") then cur
  else if is_title row then head row else cur.

Definition section_from (cur : option string) (rows : list (list string))
  : option string :=
  fold_left section_after rows cur.

(** A [!Name] row met while in [^ROW_DATA]. *)
Definition is_Name_row (cur : option string) (row : list string) : bool :=
  bool_decide (cur = Some "^ROW_DATA") && bool_decide (head row = Some "!Name").

(** The schema after the rows, starting in section [cur] with [names]. *)
Fixpoint schema_from (cur : option string) (names : option (list string))
  (rows : list (list string)) : option (list string) :=
  match rows with
  | [] => names
  | row :: rest =>
      schema_from (section_after cur row)
        (if is_Name_row cur row then Some (tail row) else names) rest
  end.

Definition schema_of (rows : list (list string)) : option (list string) :=
  schema_from None None rows.

(** The rows after the first [^TABLE_BEGIN] marker. *)
Fixpoint table_section (rows : list (list string)) : list (list string) :=
  match rows with
  | [] => []
  | row :: rest =>
      if bool_decide (head row = Some "^TABLE_BEGIN") then rest
      else table_section rest
  end.

(** The rows before the first section marker. *)
Fixpoint preamble (rows : list (list string)) : list (list string) :=
  match rows with
  | [] => []
  | row :: rest => if is_title row then [] else row :: preamble rest
  end.

(** The two kinds of table rows for a schema [names]: the slot after the
    sample annotations is empty for a sample row and holds the label for
    a column-annotation row. *)
Definition is_sample_row (names : list string) (row : list string) : bool :=
  bool_decide (row !! length names = Some "").

Definition sample_rows (names : list string) (tbl : list (list string))
  : list (list string) :=
  List.filter (is_sample_row names) tbl.

(** Label and values of a column-annotation row. *)
Definition col_row (names : list string) (row : list string)
  : option (string * list string) :=
  match row !! length names with
  | Some label =>
      if truthy_str label then Some (label, drop (length names + 1) row)
      else None
  | None => None
  end.

Definition col_rows (names : list string) (tbl : list (list string))
  : list (string * list string) :=
  omap (col_row names) tbl.

(** The values of the last row carrying a label. *)
Definition last_labelled (label : string) (rows : list (string * list string))
  : option (list string) :=
  snd <$> last (List.filter (fun lv => bool_decide (lv.1 = label)) rows).

(** The value a sample row has in a named annotation field. *)
Definition field (name : string) (names row : list string) : option string :=
  i ← find_index name names; row !! i.

(** A sample row that duplicates the schema line. *)
Definition is_stray_header (names row : list string) : bool :=
  bool_decide (take (length names) row = names).

(** The configured row filters. *)
Definition passes_filters (keepOnlyPasses keepOnlySamples : bool)
  (names row : list string) : bool :=
  (negb keepOnlySamples || bool_decide (field "SampleType" names row = Some "Sample"))
  && (negb keepOnlyPasses || bool_decide (field "RowCheck" names row = Some "PASS")).

Definition retained (keepOnlyPasses keepOnlySamples : bool)
  (names row : list string) : bool :=
  negb (is_stray_header names row)
  && passes_filters keepOnlyPasses keepOnlySamples names row.

Definition count_PASS (vals : list string) : nat :=
  length (List.filter (fun v => bool_decide (v = "PASS")) vals).

Definition count_true (mask : list bool) : nat :=
  length (List.filter (fun b => b) mask).

(** ** The helper [empty] and the entry point [main]

    White space is decided character by character, so the text handled
    here is a sequence of code points.  [main] is taken from the parsed
    arguments on; the file system is a parameter. *)
Module Cli.

Definition text := list N.

Definition of_string (s : string) : text :=
  map N_of_ascii (list_ascii_of_string s).

(** The characters that [str.strip()] removes and that [\s] matches in a
    pattern over [str]. *)
Definition is_whitespace (c : N) : bool :=
  ((9 <=? c) && (c <=? 13) || (28 <=? c) && (c <=? 32)
   || (c =? 133) || (c =? 160) || (c =? 5760)
   || (8192 <=? c) && (c <=? 8202)
   || (c =? 8232) || (c =? 8233) || (c =? 8239) || (c =? 8287)
   || (c =? 12288))%N.

(** [empty(val)]: [val == None or re.match(r"^\s*$", val)]. *)
Definition empty (val : option text) : bool :=
  match val with
  | None => true
  | Some s => forallb is_whitespace s
  end.

Fixpoint lstrip (s : text) : text :=
  match s with
  | c :: rest => if is_whitespace c then lstrip rest else s
  | [] => []
  end.

(** [s.strip()] *)
Definition strip (s : text) : text := rev (lstrip (rev (lstrip s))).

(** The values of [parser.parse_args()]: [--adat_file] has no default,
    the two flags default to "True". *)
Record Namespace := mkNamespace {
  adat_file : option text;
  keepOnlyPasses : text;
  keepOnlySamples : text
}.

(** What [csv.reader(open(path))] gives: the file cannot be opened, or it
    yields rows and then ends, normally or with a read error. *)
Inductive source :=
| Unopenable
| Rows (rows : list (list string)) (read_error : bool).

(** How a run of [main] ends. *)
Inductive outcome :=
| AttributeError                 (* None has no attribute strip *)
| AssertionError (msg : string)
| OSError                        (* open() failed *)
| ReadError                      (* reading or decoding failed *)
| ReaderRaised (e : exn)
| Printed (adat : adatVals).

Section main.

Variable path_exists : text -> bool.
Variable csv_reader : text -> source.

(** [readAdat(adat_file, ...)] on a path. *)
Definition readAdat_file (adat_file : text) (keepOnlyPasses keepOnlySamples : bool)
  : outcome :=
  match csv_reader adat_file with
  | Unopenable => OSError
  | Rows rows read_error =>
      match loop keepOnlyPasses keepOnlySamples init rows with
      | Raise e => ReaderRaised e
      | Ok st =>
          if read_error then ReadError
          else match finalize keepOnlyPasses st with
               | Raise e => ReaderRaised e
               | Ok adat => Printed adat
               end
      end
  end.

Definition is_True_or_False (s : text) : bool :=
  bool_decide (s = of_string "True") || bool_decide (s = of_string "False").

Definition main (args : Namespace) : outcome :=
  match adat_file args with
  | None => AttributeError
  | Some path =>
      let adat_file := strip path in
      let keepOnlyPasses := strip (keepOnlyPasses args) in
      let keepOnlySamples := strip (keepOnlySamples args) in
      if negb (negb (empty (Some adat_file)) && path_exists adat_file) then
        AssertionError
          "For argument adat_file, you must provide a non-empty path to a file that exists"
      else if negb (negb (empty (Some keepOnlyPasses))
                    && is_True_or_False keepOnlyPasses) then
        AssertionError "keepOnlyPasses must be True or False"
      else if negb (negb (empty (Some keepOnlySamples))
                    && is_True_or_False keepOnlySamples) then
        AssertionError "keepOnlySamples must be True or False"
      else
        readAdat_file adat_file
          (bool_decide (keepOnlyPasses = of_string "True"))
          (bool_decide (keepOnlySamples = of_string "True"))
  end.

End main.

(** The arguments with surrounding white space removed. *)
Definition stripped (args : Namespace) : Namespace :=
  {| adat_file := strip <$> adat_file args;
     keepOnlyPasses := strip (keepOnlyPasses args);
     keepOnlySamples := strip (keepOnlySamples args) |}.

(** A run that got as far as calling [readAdat]. *)
Definition reached_reader (o : outcome) : bool :=
  match o with
  | AttributeError | AssertionError _ => false
  | _ => true
  end.

End Cli.

(** More sample files. *)
Module MoreSamples.

(** Two rows labelled [SeqId], and no protein at all. *)
Definition two_SeqId_rows : list (list string) :=
  Samples.heading ++
  [ [""; ""; ""; "SeqId"];
    [""; ""; ""; "SeqId"];
    ["s1"; "Sample"; "PASS"; ""] ].


End MoreSamples.

(** ** Notions used in the statements *)

(** The filter offsets are those of the schema in force. *)
Definition schema_inv (st : locals) : Prop :=
  forall names, SampleAnnotNames (vals st) = Some names ->
    exists i j,
      find_index "SampleType" names = Some i /\ sample_type_field_i st = Some i
      /\ find_index "RowCheck" names = Some j /\ row_check_field_i st = Some j.

(** The readouts a sample row contributes, given the mask in force. *)
Definition kept_readouts (kp : bool) (flag : option (list bool))
  (readouts : list string) : list string :=
  if kp && truthy_flag flag then zip_filter readouts (mask_of flag)
  else readouts.

(** The mask in force after a run of column-annotation rows. *)
Definition flag_after (kp : bool) (flag : option (list bool))
  (cols : list (string * list string)) : option (list bool) :=
  if kp then
    match last_labelled "ColCheck" cols with
    | Some c => Some (map is_PASS c)
    | None => flag
    end
  else flag.

(** A line whose first field is "!Checksum". *)
Definition is_Checksum_row (row : list string) : bool :=
  bool_decide (head row = Some "!Checksum").

(** The state with its line counter set. *)
Definition set_line (n : nat) (st : locals) : locals :=
  {| vals := vals st; curSection := curSection st;
     sample_type_field_i := sample_type_field_i st;
     row_check_field_i := row_check_field_i st;
     sampleAndIntensityData := sampleAndIntensityData st;
     sequenceData := sequenceData st;
     sequenceDataIndex := sequenceDataIndex st;
     colPassFlag := colPassFlag st; line_count := n |}.

(** Two states that differ at most in [line_count]. *)
Definition same_but_line (st1 st2 : locals) : Prop :=
  set_line 0 st1 = set_line 0 st2.

Definition agree (r1 r2 : result locals) : Prop :=
  match r1, r2 with
  | Ok a, Ok b => same_but_line a b
  | Raise e1, Raise e2 => e1 = e2
  | _, _ => False
  end.

(** The readouts kept under the mask that a ColCheck row gives, if any:
    a row without values gives no usable mask. *)
Definition under_mask {A} (check : option (list string)) (vals : list A)
  : list A :=
  match check with
  | Some (v :: c) => zip_filter vals (map is_PASS (v :: c))
  | _ => vals
  end.

(** ** Basic facts *)

Example float_examples :
  map PyFloat.accepts ["1.5"; "-2"; " 3e-4 "; "1_000.5"; ".5"; "1."; "NaN"; "-inf"]
  = [true; true; true; true; true; true; true; true]
  /\ map PyFloat.accepts ["abc"; ""; "1._5"; "1e"; "."; "1_"; "--1"; "1 2"]
  = [false; false; false; false; false; false; false; false].
Proof. split; reflexivity. Qed.

(** Text outside ASCII: fullwidth and Arabic-Indic digits, a no-break
    space (bytes 194 160) and an ideographic space (bytes 227 128 128)
    around a number are accepted; letters and numerals that are not
    decimal digits and a zero-width space (bytes 226 128 139) are not. *)
Example float_unicode_examples :
  map PyFloat.accepts
    [ "１２"; "١٢.٥"; "-１e２"; "１_２";
      String (ascii_of_nat 194) (String (ascii_of_nat 160) "1.5");
      "1.5" +:+ String (ascii_of_nat 227) (String (ascii_of_nat 128)
                  (String (ascii_of_nat 128) "")) ]
  = [true; true; true; true; true; true]
  /\ map PyFloat.accepts
       [ "é"; "１é"; "一二"; "Ⅻ"; "²";
         String (ascii_of_nat 226) (String (ascii_of_nat 128)
           (String (ascii_of_nat 139) "1.5")) ]
     = [false; false; false; false; false; false].
Proof. split; reflexivity. Qed.

Example minimal_parses :
  exists r d s,
    readAdat true true Samples.minimal = Ok r
    /\ SampleAndIntensityData r = Some d
    /\ SequenceData r = Some s
    /\ df_columns d = map VStr ["SampleId"; "SampleType"; "RowCheck"; "SeqId.10-1"]
    /\ df_data d = [[VStr "s1"]; [VStr "Sample"]; [VStr "PASS"];
                    [VFloat (FloatOf "1.5")]]
    /\ df_dtypes d = [object; object; object; float64]
    /\ df_columns s = [VStr "SeqId.10-1"]
    /\ df_data s = [[VStr "10-1"; VStr "PASS"]]
    /\ Checksum r = Some "abc123"
    /\ Metadata r !! "!Title" = Some "demo".
Proof. vm_compute. eexists _, _, _. repeat split. Qed.


Lemma bind_Ok {A B} (m : result A) (k : A -> result B) (b : B) :
  m ≫= k = Ok b -> exists a, m = Ok a /\ k a = Ok b.
Proof. destruct m as [a|e]; simpl; [eauto | discriminate]. Qed.

Lemma bind_Raise {A B} (m : result A) (k : A -> result B) (e : exn) :
  m = Raise e -> m ≫= k = Raise e.
Proof. intros ->. reflexivity. Qed.

Ltac inv_bind H :=
  let a := fresh "a" in
  let Ha := fresh "Ha" in
  apply bind_Ok in H; destruct H as (a & Ha & H).

Lemma getitem_Ok {A} (l : list A) i x : getitem l i = Ok x <-> l !! i = Some x.
Proof. unfold getitem. destruct (l !! i); split; congruence. Qed.

Lemma mapM_Ok {A B} (f : A -> result B) l l' :
  mapM f l = Ok l' -> Forall2 (fun x y => f x = Ok y) l l'.
Proof.
  revert l'. induction l as [|x xs IH]; simpl; intros l' H.
  - injection H as <-. constructor.
  - inv_bind H. inv_bind H. injection H as <-. constructor; auto.
Qed.



Lemma find_index_Some x l i :
  find_index x l = Some i -> l !! i = Some x /\ i < length l.
Proof.
  revert i. induction l as [|y ys IH]; simpl; intros i H; [done|].
  case_bool_decide as Hy.
  - injection H as <-. subst. split; [done | lia].
  - destruct (find_index x ys) as [k|]; [|done]. injection H as <-.
    destruct (IH k eq_refl). split; [done | lia].
Qed.

Lemma find_index_None x l : find_index x l = None <-> x ∉ l.
Proof.
  induction l as [|y ys IH]; simpl.
  - split; [intros _; apply not_elem_of_nil | done].
  - case_bool_decide as Hy.
    + subst. split; [done|]. intros H. exfalso. apply H. by left.
    + rewrite not_elem_of_cons, <- IH.
      destruct (find_index x ys); simpl; split;
        [done | intros [_ [=]] | intros _; split; congruence | done].
Qed.

Lemma zip_filter_length_le {A} (vals : list A) mask :
  length (zip_filter vals mask) <= count_true mask.
Proof.
  unfold count_true.
  revert mask. induction vals as [|v vs IH]; intros [|[] bs]; simpl; try lia.
  - specialize (IH bs). lia.
  - apply IH.
Qed.

Lemma zip_filter_map_length {A} (f : A -> bool) (vals : list A) :
  length (zip_filter vals (map f vals)) = count_true (map f vals).
Proof.
  unfold count_true.
  induction vals as [|v vs IH]; simpl; [done|].
  destruct (f v); simpl; by rewrite IH.
Qed.

Lemma count_PASS_mask (vals : list string) :
  count_PASS vals = count_true (map is_PASS vals).
Proof.
  unfold count_PASS, count_true, is_PASS.
  induction vals as [|v vs IH]; simpl; [done|].
  destruct (bool_decide (v = "PASS")); simpl; by rewrite IH.
Qed.

Lemma mask_lookup (vals : list string) i :
  map is_PASS vals !! i = Some true <-> vals !! i = Some "PASS".
Proof.
  rewrite list_lookup_fmap. unfold is_PASS.
  destruct (vals !! i) as [v|]; simpl; [|done].
  case_bool_decide; split; intros [=]; subst; done.
Qed.

(** ** Tables built from rows *)

Lemma width_ge {A} (rows : list (list A)) r :
  r ∈ rows -> length r <= width rows.
Proof.
  unfold width. induction rows as [|x xs IH]; simpl.
  - intros H. by apply elem_of_nil in H.
  - intros [->|H]%elem_of_cons; [lia|]. specialize (IH H). lia.
Qed.

Lemma width_bound {A} (rows : list (list A)) n :
  (forall r, r ∈ rows -> length r <= n) -> width rows <= n.
Proof.
  unfold width. induction rows as [|x xs IH]; simpl; intros H; [lia|].
  pose proof (H x ltac:(by left)).
  assert (foldr Nat.max 0 (map length xs) <= n)
    by (apply IH; intros r Hr; apply H; by right).
  lia.
Qed.

Lemma cells_of_row r k n :
  k + n = length r -> map (cell_of r) (seq k n) = map VStr (drop k r).
Proof.
  revert k. induction n as [|n IH]; intros k Hk; simpl.
  - by rewrite drop_ge by lia.
  - destruct (lookup_lt_is_Some_2 r k ltac:(lia)) as [x Hx].
    rewrite (drop_S _ _ _ Hx). simpl. unfold cell_of at 1. rewrite Hx.
    f_equal. apply IH. lia.
Qed.

Lemma row_at_DataFrame_index data index i :
  row_at (DataFrame_index data index) i
  = map (fun j => match data !! i with
                  | Some r => cell_of r j
                  | None => VNone
                  end) (seq 0 (width data)).
Proof.
  unfold row_at, DataFrame_index, columns_of_rows. simpl.
  rewrite map_map. apply map_ext. intros j.
  rewrite list_lookup_fmap. by destruct (data !! i).
Qed.

Lemma row_at_columns_of_rows idx cols dts w data i :
  row_at (mkDataFrame idx cols dts (columns_of_rows w data)) i
  = map (fun j => match data !! i with
                  | Some r => cell_of r j
                  | None => VNone
                  end) (seq 0 w).
Proof.
  unfold row_at, columns_of_rows. simpl.
  rewrite map_map. apply map_ext. intros j.
  rewrite list_lookup_fmap. by destruct (data !! i).
Qed.

Lemma filter_length_le {A} (f : A -> bool) l :
  length (List.filter f l) <= length l.
Proof.
  induction l as [|x l IH]; simpl; [lia|]. destruct (f x); simpl; lia.
Qed.

Lemma last_labelled_elem label cols c :
  last_labelled label cols = Some c -> (label, c) ∈ cols.
Proof.
  unfold last_labelled. intros H.
  destruct (last (List.filter (fun lv => bool_decide (lv.1 = label)) cols))
    as [[l v]|] eqn:Hl; [|done].
  simpl in H. injection H as ->.
  apply last_Some_elem_of, list_elem_of_In, filter_In in Hl as [Hin Hb].
  apply bool_decide_eq_true_1 in Hb. simpl in Hb. subst.
  by apply list_elem_of_In.
Qed.

Lemma positions_from_spec key l : forall from i,
  i ∈ positions_from from key l
  <-> exists j, i = from + j /\ l !! j = Some key.
Proof.
  induction l as [|x xs IH]; intros from i; simpl.
  - split; [intros H; by apply elem_of_nil in H | by intros (j & _ & ?)].
  - assert (i ∈ positions_from (S from) key xs
            <-> exists j, i = from + S j /\ xs !! j = Some key) as IH'.
    { rewrite IH. split; intros (j & -> & ?); exists j; split; (lia || done). }
    case_bool_decide as Hx.
    + rewrite elem_of_cons, IH'. split.
      * intros [->|(j & -> & ?)]; [exists 0 | exists (S j)];
          (split; [lia | by subst]).
      * intros ([|j] & -> & Hj); [left; lia | right; eauto].
    + rewrite IH'. split.
      * intros (j & -> & ?). exists (S j). done.
      * intros ([|j] & -> & Hj); [simpl in Hj; congruence | eauto].
Qed.

Lemma mapM_str_add_cells p r : forall w k out,
  mapM (str_add p) (map (cell_of r) (seq k w)) = Ok out ->
  (w = 0 \/ k + w <= length r)
  /\ out = map (String.append p) (take w (drop k r)).
Proof.
  induction w as [|w IH]; intros k out H; simpl in H.
  - injection H as <-. split; [by left|]. done.
  - inv_bind H. inv_bind H. injection H as <-.
    unfold cell_of in Ha. destruct (r !! k) as [x|] eqn:Hx; [|done].
    simpl in Ha. injection Ha as <-.
    apply IH in Ha0 as [Hw ->].
    apply lookup_lt_Some in Hx as Hlt.
    split; [right; lia|].
    by rewrite (drop_S _ _ _ Hx).
Qed.

Lemma mapM_str_add_RangeIndex p w out :
  mapM (str_add p) (RangeIndex w) = Ok out -> w = 0 /\ out = [].
Proof.
  destruct w as [|w]; simpl; [by intros [= <-]|]. discriminate.
Qed.

(** The labels derived from the row labelled ["SeqId"]: when they can be
    formed, every row so labelled holds the same values, one per column
    of the table. *)
Lemma SeqId_labels data index vals p seqIds :
  length data = length index ->
  loc_iter (DataFrame_index data index) "SeqId" = Ok vals ->
  mapM (str_add p) vals = Ok seqIds ->
  exists ids,
    seqIds = map (String.append p) ids
    /\ length ids = width data
    /\ (exists i, index !! i = Some "SeqId")
    /\ forall i, index !! i = Some "SeqId" -> data !! i = Some ids.
Proof.
  intros Hlen Hloc Hmap. unfold loc_iter in Hloc.
  pose proof (positions_from_spec (VStr "SeqId")
                (df_index (DataFrame_index data index)) 0) as Hpos.
  simpl in Hpos.
  assert (forall i, i ∈ positions_from 0 (VStr "SeqId") (map VStr index)
                    <-> index !! i = Some "SeqId") as Hpos'.
  { intros i. rewrite Hpos. split.
    - intros (j & -> & Hj). simpl. rewrite list_lookup_fmap in Hj.
      destruct (index !! j); simpl in Hj; congruence.
    - intros Hi. exists i. split; [done|].
      rewrite list_lookup_fmap, Hi. done. }
  clear Hpos. simpl in Hloc.
  destruct (positions_from 0 (VStr "SeqId") (map VStr index))
    as [|i [|i' rest]] eqn:Hp; [done| |].
  - injection Hloc as <-. rewrite row_at_DataFrame_index in Hmap.
    assert (index !! i = Some "SeqId") as Hi by (apply Hpos'; by left).
    destruct (lookup_lt_is_Some_2 data i) as [r Hr].
    { rewrite Hlen. by apply lookup_lt_Some in Hi. }
    rewrite Hr in Hmap.
    change (fun j => cell_of r j) with (cell_of r) in Hmap.
    apply mapM_str_add_cells in Hmap as [Hw ->].
    assert (length r <= width data) as Hle
      by (apply width_ge; by eapply list_elem_of_lookup_2).
    rewrite drop_0. rewrite take_ge by lia.
    exists r. repeat split; [lia | eauto |].
    intros i2 Hi2. apply Hpos' in Hi2.
    apply list_elem_of_singleton in Hi2 as ->. done.
  - injection Hloc as <-. simpl in Hmap.
    apply mapM_str_add_RangeIndex in Hmap as [Hw ->].
    exists []. repeat split; [done | |].
    + exists i. apply Hpos'. by left.
    + intros i2 Hi2.
      destruct (lookup_lt_is_Some_2 data i2) as [r Hr].
      { rewrite Hlen. by apply lookup_lt_Some in Hi2. }
      assert (length r <= width data) as Hle
        by (apply width_ge; by eapply list_elem_of_lookup_2).
      rewrite Hr. f_equal. apply nil_length_inv. lia.
Qed.

Lemma loc_iter_KeyError data index :
  "SeqId" ∉ index ->
  loc_iter (DataFrame_index data index) "SeqId" = Raise (KeyError "SeqId").
Proof.
  intros Hnot. unfold loc_iter.
  destruct (positions_from 0 (VStr "SeqId")
              (df_index (DataFrame_index data index))) as [|i rest] eqn:Hp;
    [done|].
  exfalso. apply Hnot.
  assert (i ∈ positions_from 0 (VStr "SeqId")
                (df_index (DataFrame_index data index))) as Hi
    by (rewrite Hp; by left).
  apply positions_from_spec in Hi as (j & _ & Hj). simpl in Hj.
  rewrite list_lookup_fmap in Hj.
  destruct (index !! j) as [x|] eqn:Hx; simpl in Hj; [|done].
  injection Hj as ->. by eapply list_elem_of_lookup_2.
Qed.

(** ** Conversion of the readout columns *)




Lemma astype_Ok df keys d :
  astype df keys = Ok d ->
  df_index d = df_index df
  /\ df_columns d = df_columns df
  /\ df_dtypes d
     = map (astype_dtype keys) (zip (df_columns df) (df_dtypes df))
  /\ Forall2 (fun lc col' => astype_column keys lc = Ok col')
       (zip (df_columns df) (df_data df)) (df_data d).
Proof.
  unfold astype. intros H. inv_bind H. inv_bind H. injection H as <-. simpl.
  repeat split. by apply mapM_Ok.
Qed.



(** ** The pass over the rows *)

Section pass.

Variables kp ks : bool.

Lemma loop_app st l1 l2 :
  loop kp ks st (l1 ++ l2) = st' ← loop kp ks st l1; loop kp ks st' l2.
Proof.
  revert st. induction l1 as [|r l1 IH]; intros st; simpl; [done|].
  destruct (body kp ks st r) as [st1|e]; simpl; [apply IH | done].
Qed.

Lemma loop_app_Ok st l1 l2 st2 :
  loop kp ks st (l1 ++ l2) = Ok st2 ->
  exists st1, loop kp ks st l1 = Ok st1 /\ loop kp ks st1 l2 = Ok st2.
Proof. rewrite loop_app. apply bind_Ok. Qed.

(** What a row outside the table can change. *)
Lemma header_row_Ok st row st' :
  header_row st row = Ok st' ->
  curSection st <> Some "^TABLE_BEGIN" ->
  curSection st' = section_after (curSection st) row
  /\ SampleAnnotNames (vals st')
     = (if is_Name_row (curSection st) row then Some (tail row)
        else SampleAnnotNames (vals st))
  /\ sampleAndIntensityData st' = sampleAndIntensityData st
  /\ sequenceData st' = sequenceData st
  /\ sequenceDataIndex st' = sequenceDataIndex st
  /\ colPassFlag st' = colPassFlag st.
Proof.
  unfold header_row, section_after, is_Name_row. intros H Hsec.
  rewrite (bool_decide_eq_false_2 _ Hsec).
  inv_bind H. apply getitem_Ok in Ha. destruct row as [|row0 fields]; [done|].
  simpl in Ha. injection Ha as ->. simpl.
  destruct (bool_decide (a ∈ sectionTitles)) eqn:Ht.
  { apply bool_decide_eq_true_1 in Ht. injection H as <-. simpl.
    repeat split; try done.
    destruct (bool_decide (curSection st = Some "^ROW_DATA")); [simpl|done].
    rewrite bool_decide_eq_false_2; [done|]. intros [= ->].
    unfold sectionTitles in Ht. set_solver. }
  destruct (bool_decide (curSection st = None)) eqn:Hnone; simpl in H.
  { apply bool_decide_eq_true_1 in Hnone. rewrite Hnone in *. simpl in *.
    destruct (bool_decide (a = "!Checksum")).
    - inv_bind H. injection H as <-. done.
    - injection H as <-. done. }
  destruct (bool_decide (curSection st = Some "^HEADER")) eqn:Hh.
  { apply bool_decide_eq_true_1 in Hh. rewrite Hh in *. simpl in *.
    inv_bind H. injection H as <-. done. }
  destruct (bool_decide (curSection st = Some "^ROW_DATA")) eqn:Hr; simpl in *.
  { destruct (bool_decide (a = "!Name")) eqn:Hn.
    - apply bool_decide_eq_true_1 in Hn. subst a.
      inv_bind H. inv_bind H. injection H as <-. done.
    - injection H as <-. simpl.
      rewrite bool_decide_eq_false_2; [done|].
      apply bool_decide_eq_false_1 in Hn. congruence. }
  destruct (bool_decide (curSection st = Some "^COL_DATA"));
    injection H as <-; done.
Qed.

Lemma header_row_schema_inv st row st' :
  header_row st row = Ok st' -> schema_inv st -> schema_inv st'.
Proof.
  unfold header_row. intros H Hinv.
  inv_bind H.
  destruct (bool_decide (a ∈ sectionTitles)); [by injection H as <-|].
  destruct (bool_decide (curSection st = None) && bool_decide (a = "!Checksum")).
  { inv_bind H. by injection H as <-. }
  destruct (bool_decide (curSection st = Some "^HEADER")).
  { inv_bind H. by injection H as <-. }
  destruct (bool_decide (curSection st = Some "^ROW_DATA")
            || bool_decide (curSection st = Some "^COL_DATA"));
    [|by injection H as <-].
  destruct (bool_decide (curSection st = Some "^ROW_DATA")
            && bool_decide (a = "!Name")); [|by injection H as <-].
  inv_bind H. inv_bind H. injection H as <-.
  unfold list_index in Ha0, Ha1.
  destruct (find_index "SampleType" (tail row)) as [i|] eqn:Hi; [|done].
  destruct (find_index "RowCheck" (tail row)) as [j|] eqn:Hj; [|done].
  injection Ha0 as <-. injection Ha1 as <-.
  intros names [= <-]. exists i, j. done.
Qed.

Lemma skips_field enabled name wanted names row i :
  find_index name names = Some i ->
  length names < length row ->
  skips enabled (Some i) wanted (take (length names) row)
  = Ok (enabled && negb (bool_decide (field name names row = Some wanted))).
Proof.
  intros Hi Hlen. unfold skips, field. rewrite Hi. simpl.
  destruct enabled; [|done]. simpl.
  apply find_index_Some in Hi as [_ Hlt].
  unfold getitem. rewrite lookup_take_lt by done.
  destruct (row !! i) as [x|] eqn:Hx.
  - cbn. f_equal. repeat case_bool_decide; simpl; congruence.
  - apply lookup_ge_None in Hx. lia.
Qed.

(** The three ways a table row is handled. *)
Lemma table_row_no_schema st row :
  SampleAnnotNames (vals st) = None ->
  table_row kp ks st row = Raise (KeyError "SampleAnnotNames").
Proof. unfold table_row. by intros ->. Qed.

Lemma table_row_column st names row label :
  SampleAnnotNames (vals st) = Some names ->
  row !! length names = Some label -> label <> "" ->
  table_row kp ks st row
  = Ok (next_line
          (let st1 := append_sequence label (drop (length names + 1) row) st in
           if kp && bool_decide (label = "ColCheck")
           then set_colPassFlag (map is_PASS (drop (length names + 1) row)) st1
           else st1)).
Proof.
  intros Hn Hl Hne. unfold table_row. rewrite Hn. simpl.
  unfold getitem. rewrite Hl. simpl. unfold truthy_str.
  by rewrite bool_decide_eq_false_2.
Qed.

Lemma table_row_sample st names row :
  SampleAnnotNames (vals st) = Some names ->
  schema_inv st ->
  row !! length names = Some "" ->
  table_row kp ks st row
  = Ok (if is_stray_header names row then next_line st
        else if passes_filters kp ks names row
        then next_line
               (append_sample
                  (take (length names) row
                   ++ kept_readouts kp (colPassFlag st)
                        (drop (length names + 1) row)) st)
        else st).
Proof.
  intros Hn Hinv Hl. unfold table_row. rewrite Hn. simpl.
  unfold getitem at 1. rewrite Hl. simpl.
  unfold is_stray_header.
  destruct (decide (take (length names) row = names)) as [Heq|Hne].
  { rewrite bool_decide_eq_false_2 by (intros ?; done).
    by rewrite bool_decide_eq_true_2. }
  rewrite bool_decide_eq_true_2 by done.
  rewrite (bool_decide_eq_false_2 (take _ _ = _)) by done.
  destruct (Hinv names Hn) as (i & j & Hi & -> & Hj & ->).
  assert (length names < length row) as Hlen
    by (apply lookup_lt_Some in Hl; lia).
  rewrite (skips_field _ "SampleType" _ _ _ _ Hi Hlen).
  rewrite (skips_field _ "RowCheck" _ _ _ _ Hj Hlen).
  unfold passes_filters, kept_readouts. simpl.
  destruct ks, kp; simpl;
    repeat (destruct (bool_decide (field _ names row = Some _)); simpl); done.
Qed.

Lemma table_row_short st names row :
  SampleAnnotNames (vals st) = Some names ->
  row !! length names = None ->
  table_row kp ks st row = Raise IndexError.
Proof.
  intros Hn Hl. unfold table_row. rewrite Hn. simpl.
  unfold getitem. by rewrite Hl.
Qed.

Lemma last_labelled_snoc label cols x :
  last_labelled label (cols ++ [x])
  = if bool_decide (x.1 = label) then Some x.2 else last_labelled label cols.
Proof.
  unfold last_labelled. rewrite List.filter_app. simpl.
  destruct (bool_decide (x.1 = label)).
  - by rewrite last_snoc.
  - by rewrite app_nil_r.
Qed.

Lemma col_rows_snoc names tbl row :
  col_rows names (tbl ++ [row])
  = col_rows names tbl ++ match col_row names row with
                          | Some x => [x]
                          | None => []
                          end.
Proof.
  unfold col_rows. rewrite omap_app. simpl. by destruct (col_row names row).
Qed.

Lemma sample_rows_snoc names tbl row :
  sample_rows names (tbl ++ [row])
  = sample_rows names tbl ++ (if is_sample_row names row then [row] else []).
Proof. unfold sample_rows. by rewrite List.filter_app. Qed.

Lemma col_row_sample names row :
  row !! length names = Some "" ->
  col_row names row = None /\ is_sample_row names row = true.
Proof.
  intros H. unfold col_row, is_sample_row. rewrite H.
  split; [done | by apply bool_decide_eq_true_2].
Qed.

Lemma col_row_column names row label :
  row !! length names = Some label -> label <> "" ->
  col_row names row = Some (label, drop (length names + 1) row)
  /\ is_sample_row names row = false.
Proof.
  intros H Hne. unfold col_row, is_sample_row, truthy_str. rewrite H.
  rewrite bool_decide_eq_false_2 by done. split; [done|].
  apply bool_decide_eq_false_2. congruence.
Qed.

(** What the pass over a run of table rows leaves in the state. *)
Lemma loop_table tbl : forall st st' names,
  curSection st = Some "^TABLE_BEGIN" ->
  SampleAnnotNames (vals st) = Some names ->
  schema_inv st ->
  loop kp ks st tbl = Ok st' ->
  vals st' = vals st
  /\ curSection st' = Some "^TABLE_BEGIN"
  /\ schema_inv st'
  /\ sequenceDataIndex st'
     = sequenceDataIndex st ++ map fst (col_rows names tbl)
  /\ sequenceData st' = sequenceData st ++ map snd (col_rows names tbl)
  /\ colPassFlag st' = flag_after kp (colPassFlag st) (col_rows names tbl)
  /\ exists extra,
       sampleAndIntensityData st' = sampleAndIntensityData st ++ extra
       /\ length extra
          = length (List.filter (retained kp ks names) (sample_rows names tbl)).
Proof.
  induction tbl as [|row tbl IH] using rev_ind; intros st st' names Hsec Hn Hinv H.
  { injection H as <-. unfold flag_after, last_labelled. simpl.
    rewrite !app_nil_r. repeat split; try done.
    - by destruct kp.
    - exists []. by rewrite app_nil_r. }
  apply loop_app_Ok in H as (st1 & H1 & H2).
  destruct (IH _ _ _ Hsec Hn Hinv H1)
    as (Hv & Hsec1 & Hinv1 & Hidx & Hdat & Hflag & extra & Hsamp & Hlen).
  simpl in H2. inv_bind H2. injection H2 as <-.
  unfold body in Ha. rewrite Hsec1 in Ha.
  rewrite bool_decide_eq_true_2 in Ha by done.
  assert (SampleAnnotNames (vals st1) = Some names) as Hn1 by congruence.
  rewrite col_rows_snoc, sample_rows_snoc, List.filter_app.
  destruct (row !! length names) as [label|] eqn:Hl;
    [|by rewrite (table_row_short _ _ _ Hn1 Hl) in Ha].
  destruct (decide (label = "")) as [->|Hne].
  - destruct (col_row_sample _ _ Hl) as [-> ->].
    rewrite (table_row_sample _ _ _ Hn1 Hinv1 Hl) in Ha.
    rewrite !app_nil_r. simpl. unfold retained in Hlen |- *.
    destruct (is_stray_header names row); simpl.
    { injection Ha as <-. simpl. rewrite app_nil_r. repeat split; try done.
      exists extra. done. }
    destruct (passes_filters kp ks names row); injection Ha as <-; simpl.
    + repeat split; try done.
      eexists (extra ++ [_]). rewrite Hsamp, <- app_assoc. split; [done|].
      rewrite !length_app. simpl. lia.
    + rewrite app_nil_r. repeat split; try done. exists extra. done.
  - destruct (col_row_column _ _ _ Hl Hne) as [-> ->].
    rewrite (table_row_column _ _ _ _ Hn1 Hl Hne) in Ha.
    injection Ha as <-. simpl. rewrite !app_nil_r.
    rewrite !map_app, !app_assoc. simpl.
    unfold flag_after. rewrite last_labelled_snoc. simpl.
    revert Hflag. unfold flag_after.
    destruct kp; simpl; intros Hflag;
      [destruct (bool_decide (label = "ColCheck")); simpl|];
      rewrite ?Hidx, ?Hdat, ?Hflag;
      repeat split; try exact Hinv1; eauto.
Qed.

Lemma schema_from_table names rows :
  schema_from (Some "^TABLE_BEGIN") names rows = names.
Proof. induction rows as [|r rows IH]; simpl; [done | apply IH]. Qed.

Lemma section_after_not_table cur row :
  cur <> Some "^TABLE_BEGIN" -> head row <> Some "^TABLE_BEGIN" ->
  section_after cur row <> Some "^TABLE_BEGIN".
Proof.
  intros Hc Hr. unfold section_after.
  rewrite bool_decide_eq_false_2 by done. by destruct (is_title row).
Qed.

Lemma section_after_marker cur :
  forall row, head row = Some "^TABLE_BEGIN" ->
  section_after cur row = Some "^TABLE_BEGIN"
  /\ is_Name_row cur row = false.
Proof.
  intros [|row0 fields] [=]; subst. unfold section_after, is_Name_row. simpl.
  split.
  - case_bool_decide; [done|]. by vm_compute.
  - apply andb_false_intro2. by vm_compute.
Qed.

(** The pass splits at the [^TABLE_BEGIN] marker: the rows before it fix
    the schema and leave the table accumulators alone. *)
Lemma loop_header rows : forall st st',
  curSection st <> Some "^TABLE_BEGIN" ->
  schema_inv st ->
  loop kp ks st rows = Ok st' ->
  exists st1,
    loop kp ks st1 (table_section rows) = Ok st'
    /\ schema_inv st1
    /\ SampleAnnotNames (vals st1)
       = schema_from (curSection st) (SampleAnnotNames (vals st)) rows
    /\ sampleAndIntensityData st1 = sampleAndIntensityData st
    /\ sequenceData st1 = sequenceData st
    /\ sequenceDataIndex st1 = sequenceDataIndex st
    /\ colPassFlag st1 = colPassFlag st
    /\ (table_section rows = [] \/ curSection st1 = Some "^TABLE_BEGIN").
Proof.
  induction rows as [|r rest IH]; intros st st' Hsec Hinv H.
  { exists st. simpl in *. repeat split; try done. by left. }
  simpl in H. inv_bind H. unfold body in Ha.
  rewrite bool_decide_eq_false_2 in Ha by done.
  pose proof (header_row_schema_inv _ _ _ Ha Hinv) as Hinv'.
  apply header_row_Ok in Ha as (Hs & Hn & H1 & H2 & H3 & H4); [|done].
  simpl. case_bool_decide as Hm.
  - destruct (section_after_marker (curSection st) r Hm) as [Hs' Hn'].
    exists a. rewrite Hs', Hn', schema_from_table. rewrite Hn' in Hn.
    repeat split; try done. right. congruence.
  - destruct (IH a st') as (st1 & ? & ? & Hn1 & ? & ? & ? & ? & ?); try done.
    { rewrite Hs. by apply section_after_not_table. }
    exists st1. rewrite Hn1, Hs, Hn. repeat split; try done; congruence.
Qed.

Lemma schema_inv_init : schema_inv init.
Proof. intros names [=]. Qed.

(** The state after a whole pass, in terms of the file. *)
Lemma loop_init rows st :
  loop kp ks init rows = Ok st ->
  SampleAnnotNames (vals st) = schema_of rows
  /\ schema_inv st
  /\ forall names, schema_of rows = Some names ->
       sequenceDataIndex st = map fst (col_rows names (table_section rows))
       /\ sequenceData st = map snd (col_rows names (table_section rows))
       /\ colPassFlag st
          = flag_after kp None (col_rows names (table_section rows))
       /\ length (sampleAndIntensityData st)
          = length (List.filter (retained kp ks names)
                      (sample_rows names (table_section rows))).
Proof.
  intros H.
  apply loop_header in H
    as (st1 & H & Hinv & Hn & Hs & Hd & Hi & Hf & Hcase);
    [|done|apply schema_inv_init].
  simpl in Hn, Hs, Hd, Hi, Hf.
  change (schema_from None None rows) with (schema_of rows) in Hn.
  destruct Hcase as [Hnil|Hsec].
  { rewrite Hnil in *. injection H as <-. repeat split; try done.
    - rewrite Hf. unfold flag_after, last_labelled. simpl. by destruct kp.
    - by rewrite Hs. }
  destruct (schema_of rows) as [names|] eqn:Hschema.
  - destruct (loop_table _ _ _ _ Hsec Hn Hinv H)
      as (Hv & _ & Hinv' & Hidx & Hdat & Hflag & extra & Hsamp & Hlen).
    rewrite Hv. split; [done|]. split; [done|].
    intros ? [= <-]. rewrite Hidx, Hdat, Hflag, Hsamp, Hs, Hd, Hi, Hf.
    simpl. by rewrite Hlen.
  - destruct (table_section rows) as [|r tbl] eqn:Htbl.
    + injection H as <-. repeat split; try done.
    + simpl in H. unfold body in H.
      rewrite Hsec, bool_decide_eq_true_2 in H by done.
      by rewrite (table_row_no_schema _ _ Hn) in H.
Qed.

(** ** The checksum and the metadata *)

Lemma table_row_keeps st row st' :
  table_row kp ks st row = Ok st' ->
  vals st' = vals st /\ curSection st' = curSection st.
Proof.
  unfold table_row. intros H.
  inv_bind H. inv_bind H.
  destruct (truthy_str a0).
  { injection H as <-. simpl.
    by destruct (kp && bool_decide (a0 = "ColCheck")). }
  inv_bind H.
  destruct (bool_decide (take (length a) row ≠ a1)); [|by injection H as <-].
  inv_bind H. destruct a2; [by injection H as <-|].
  inv_bind H. destruct a2; by injection H as <-.
Qed.

Lemma header_row_vals st row st' :
  header_row st row = Ok st' ->
  (Checksum (vals st')
   = if bool_decide (curSection st = None) && is_Checksum_row row
     then row !! 1 else Checksum (vals st))
  /\ (bool_decide (curSection st = None) && is_Checksum_row row = true ->
      is_Some (row !! 1))
  /\ (forall k, is_Some (Metadata (vals st) !! k) ->
                is_Some (Metadata (vals st') !! k))
  /\ (curSection st = Some "^HEADER" -> is_Checksum_row row = true ->
      exists v, row !! 1 = Some v
        /\ Metadata (vals st') = <["!Checksum":=v]> (Metadata (vals st))).
Proof.
  unfold header_row, is_Checksum_row. intros H.
  inv_bind H. apply getitem_Ok in Ha.
  destruct row as [|row0 fields]; [done|]. simpl in Ha. injection Ha as ->.
  simpl.
  destruct (bool_decide (a ∈ sectionTitles)) eqn:Ht.
  { injection H as <-. simpl.
    assert (bool_decide (Some a = Some "!Checksum") = false) as ->.
    { apply bool_decide_eq_false_2. intros [= ->]. by vm_compute in Ht. }
    rewrite andb_false_r. done. }
  destruct (bool_decide (curSection st = None)) eqn:Hnone; simpl in *.
  { apply bool_decide_eq_true_1 in Hnone.
    destruct (bool_decide (a = "!Checksum")) eqn:Hc.
    - apply bool_decide_eq_true_1 in Hc. subst a.
      inv_bind H. apply getitem_Ok in Ha. simpl in Ha.
      injection H as <-. simpl. rewrite Ha.
      repeat split; eauto. intros Hh. congruence.
    - rewrite bool_decide_eq_false_2.
      2:{ apply bool_decide_eq_false_1 in Hc. congruence. }
      rewrite (bool_decide_eq_false_2 (curSection st = Some "^HEADER")) in H
        by congruence.
      rewrite !(bool_decide_eq_false_2 (curSection st = Some _)) in H
        by congruence.
      simpl in H. injection H as <-. repeat split; eauto; done. }
  destruct (bool_decide (curSection st = Some "^HEADER")) eqn:Hh.
  { inv_bind H. apply getitem_Ok in Ha. simpl in Ha.
    injection H as <-. simpl. repeat split; try done.
    - intros k Hk. destruct (decide (a = k)) as [->|Hne].
      + rewrite lookup_insert_eq. eauto.
      + by rewrite lookup_insert_ne.
    - intros _ Hc. apply bool_decide_eq_true_1 in Hc.
      injection Hc as ->. eauto. }
  apply bool_decide_eq_false_1 in Hh.
  destruct (bool_decide (curSection st = Some "^ROW_DATA")
            || bool_decide (curSection st = Some "^COL_DATA"));
    [|injection H as <-; repeat split; done].
  destruct (bool_decide (curSection st = Some "^ROW_DATA")
            && bool_decide (a = "!Name"));
    [|injection H as <-; repeat split; done].
  inv_bind H. inv_bind H. injection H as <-. repeat split; done.
Qed.

Lemma body_section st row st' :
  body kp ks st row = Ok st' ->
  curSection st' = section_after (curSection st) row.
Proof.
  unfold body. case_bool_decide as Hsec; intros H.
  - apply table_row_keeps in H as [_ ->]. unfold section_after.
    by rewrite bool_decide_eq_true_2.
  - by apply header_row_Ok in H as [? _].
Qed.

Lemma loop_section rows : forall st st',
  loop kp ks st rows = Ok st' ->
  curSection st' = section_from (curSection st) rows.
Proof.
  induction rows as [|r rows IH]; intros st st' H; simpl in *.
  - by injection H as <-.
  - inv_bind H. apply body_section in Ha as <-. by apply IH.
Qed.

Lemma section_after_Some cur row :
  cur <> None -> section_after cur row <> None.
Proof.
  unfold section_after. intros Hc. case_bool_decide; [done|].
  destruct row as [|row0 fields]; simpl; [done|]. by case_bool_decide.
Qed.

(** Once a section has begun the checksum is never written again. *)
Lemma loop_Checksum_fixed rows : forall st st',
  curSection st <> None ->
  loop kp ks st rows = Ok st' ->
  Checksum (vals st') = Checksum (vals st).
Proof.
  induction rows as [|r rows IH]; intros st st' Hsec H; simpl in *.
  - by injection H as <-.
  - inv_bind H. pose proof (body_section _ _ _ Ha) as Hs.
    rewrite (IH a st'); [| rewrite Hs; by apply section_after_Some | done].
    unfold body in Ha. case_bool_decide.
    + by apply table_row_keeps in Ha as [-> _].
    + apply header_row_vals in Ha as (-> & _).
      by rewrite bool_decide_eq_false_2.
Qed.

Lemma loop_Checksum rows : forall st st',
  curSection st = None ->
  loop kp ks st rows = Ok st' ->
  is_Some (Checksum (vals st'))
  <-> is_Some (Checksum (vals st))
      \/ exists row, row ∈ preamble rows /\ head row = Some "!Checksum".
Proof.
  induction rows as [|r rows IH]; intros st st' Hsec H; simpl in *.
  { injection H as <-. split; [by left|]. intros [?|(r & Hr & _)]; [done|].
    by apply elem_of_nil in Hr. }
  inv_bind H. pose proof (body_section _ _ _ Ha) as Hs.
  unfold body in Ha. rewrite bool_decide_eq_false_2 in Ha by congruence.
  apply header_row_vals in Ha as (Hc & Hc1 & _).
  rewrite Hsec, bool_decide_eq_true_2 in Hc, Hc1 by done. simpl in Hc, Hc1.
  unfold section_after in Hs. rewrite Hsec in Hs.
  rewrite bool_decide_eq_false_2 in Hs by done.
  destruct (is_title r) eqn:Ht.
  - rewrite (loop_Checksum_fixed _ _ _ ltac:(
      rewrite Hs; destruct r; [done | simpl; congruence]) H).
    assert (is_Checksum_row r = false) as Hn.
    { unfold is_Checksum_row. apply bool_decide_eq_false_2.
      destruct r as [|r0 ?]; [done|]. simpl in *. intros [= ->].
      by vm_compute in Ht. }
    rewrite Hn in Hc. rewrite Hc. split; [by left|].
    intros [?|(r' & Hr & _)]; [done|]. by apply elem_of_nil in Hr.
  - rewrite (IH a st' ltac:(congruence) H). rewrite Hc.
    unfold is_Checksum_row in *.
    destruct (bool_decide (head r = Some "!Checksum")) eqn:Hr.
    + apply bool_decide_eq_true_1 in Hr. split; intros _.
      * right. exists r. split; [by left | done].
      * left. by apply Hc1.
    + apply bool_decide_eq_false_1 in Hr. split.
      * intros [?|(r' & Hr' & ?)]; [by left|right].
        exists r'. split; [by right | done].
      * intros [?|(r' & Hr' & ?)]; [by left|right].
        apply elem_of_cons in Hr' as [->|?]; [done|]. eauto.
Qed.

Lemma loop_Metadata_grows rows k : forall st st',
  loop kp ks st rows = Ok st' ->
  is_Some (Metadata (vals st) !! k) ->
  is_Some (Metadata (vals st') !! k).
Proof.
  induction rows as [|r rows IH]; intros st st' H Hk; simpl in *.
  - by injection H as <-.
  - inv_bind H. apply (IH a st' H).
    unfold body in Ha. case_bool_decide.
    + by apply table_row_keeps in Ha as [-> _].
    + apply header_row_vals in Ha as (_ & _ & Hm & _). by apply Hm.
Qed.

(** ** The tables assembled after the pass *)

Lemma filtered_sequenceData_length st :
  length (filtered_sequenceData kp st) = length (sequenceData st).
Proof.
  unfold filtered_sequenceData.
  destruct (kp && truthy_flag (colPassFlag st)); [apply length_map | done].
Qed.

Lemma assemble_Ok st a :
  length (sequenceData st) = length (sequenceDataIndex st) ->
  assemble kp st = Ok a ->
  exists names ids,
    SampleAnnotNames (vals st) = Some names
    /\ a_vals a = set_SequenceAnnotNames (sequenceDataIndex st) (vals st)
    /\ a_seqIds a = map (String.append "SeqId.") ids
    /\ length ids = width (filtered_sequenceData kp st)
    /\ (exists i, sequenceDataIndex st !! i = Some "SeqId")
    /\ (forall i, sequenceDataIndex st !! i = Some "SeqId" ->
          filtered_sequenceData kp st !! i = Some ids)
    /\ a_sequenceData a
       = {| df_index := map VStr (sequenceDataIndex st);
            df_columns := map VStr (a_seqIds a);
            df_dtypes := replicate (length ids) object;
            df_data := columns_of_rows (length ids)
                         (filtered_sequenceData kp st) |}
    /\ a_sampleAndIntensityData a
       = {| df_index := RangeIndex (length (sampleAndIntensityData st));
            df_columns := map VStr (names ++ a_seqIds a);
            df_dtypes := replicate (length (names ++ a_seqIds a)) object;
            df_data := columns_of_rows (length (names ++ a_seqIds a))
                         (sampleAndIntensityData st) |}
    /\ (sampleAndIntensityData st = []
        \/ width (sampleAndIntensityData st) = length names + length ids).
Proof.
  intros Hlen H. unfold assemble in H.
  inv_bind H. rename a0 into names.
  inv_bind H. rename a0 into vs.
  inv_bind H. rename a0 into seqIds.
  inv_bind H. rename a0 into sdf.
  inv_bind H. rename a0 into ddf.
  injection H as <-. simpl.
  simpl in Ha. destruct (SampleAnnotNames (vals st)) as [names'|] eqn:Hn;
    [|done]. injection Ha as ->.
  destruct (SeqId_labels _ _ _ _ _
              (eq_trans (filtered_sequenceData_length st) Hlen) Ha0 Ha1)
    as (ids & -> & Hw & Hex & Hall).
  exists names, ids. repeat split; try done.
  - unfold set_columns in Ha2. case_bool_decide; [|done].
    injection Ha2 as <-. simpl. by rewrite Hw.
  - unfold DataFrame_columns in Ha3.
    destruct (bool_decide (sampleAndIntensityData st = [])
              || bool_decide (width (sampleAndIntensityData st)
                              = length (names
                                        ++ map (String.append "SeqId.") ids)));
      [|done].
    by injection Ha3 as <-.
  - unfold DataFrame_columns in Ha3.
    destruct (decide (sampleAndIntensityData st = [])) as [?|Hne];
      [by left|right].
    rewrite (bool_decide_eq_false_2 _ Hne) in Ha3. simpl in Ha3.
    case_bool_decide as Hwd; [|done].
    rewrite Hwd, length_app, length_map. done.
Qed.

End pass.

(** ** The line counter is never read *)

Lemma body_same_but_line kp ks st1 st2 row :
  same_but_line st1 st2 ->
  agree (body kp ks st1 row) (body kp ks st2 row).
Proof.
  destruct st1, st2. unfold same_but_line, set_line. simpl.
  intros [= -> -> -> -> -> -> -> ->].
  unfold agree, body, table_row, header_row, skips, dict_get, getitem,
    list_index, mbind, result_bind, same_but_line, set_line; simpl.
  repeat (case_match; simplify_eq/=; try done).
Qed.

Lemma loop_same_but_line kp ks rows : forall st1 st2,
  same_but_line st1 st2 ->
  agree (loop kp ks st1 rows) (loop kp ks st2 rows).
Proof.
  induction rows as [|r rows IH]; intros st1 st2 H; simpl; [done|].
  pose proof (body_same_but_line kp ks st1 st2 r H) as Hb.
  unfold agree in Hb.
  destruct (body kp ks st1 r) as [a|e1], (body kp ks st2 r) as [b|e2];
    simpl; try done.
  by apply IH.
Qed.

Lemma finalize_same_but_line kp st1 st2 :
  same_but_line st1 st2 -> finalize kp st1 = finalize kp st2.
Proof.
  destruct st1, st2. unfold same_but_line, set_line. simpl.
  intros [= -> -> -> -> -> -> -> ->]. reflexivity.
Qed.

(** ** Properties of the reader *)

Lemma readAdat_app kp ks pre post st :
  loop kp ks init pre = Ok st ->
  readAdat kp ks (pre ++ post)
  = (st' ← loop kp ks st post; finalize kp st').
Proof. intros H. unfold readAdat. by rewrite loop_app, H. Qed.

Lemma readAdat_prefix_Raise kp ks pre post e :
  loop kp ks init pre = Raise e -> readAdat kp ks (pre ++ post) = Raise e.
Proof. intros H. unfold readAdat. by rewrite loop_app, H. Qed.

Lemma header_row_Name st fields :
  curSection st = Some "^ROW_DATA" ->
  header_row st ("!Name" :: fields)
  = (i ← list_index "SampleType" fields;
     j ← list_index "RowCheck" fields;
     Ok (next_line (set_vals (set_SampleAnnotNames fields)
                      (set_field_is i j st)))).
Proof. intros H. unfold header_row. rewrite H. reflexivity. Qed.

(** C1 (the code departs from the claim): a [!Name] row of [^ROW_DATA]
    that lacks the field name "SampleType" or "RowCheck" stops the parse
    at that row: [list.index] raises ValueError for the missing name, so
    no filter offset is left unset and no result is returned. *)
Theorem Name_row_missing_field_raises kp ks pre fields post :
  section_from None pre = Some "^ROW_DATA" ->
  (exists st, loop kp ks init pre = Ok st) ->
  "SampleType" ∉ fields \/ "RowCheck" ∉ fields ->
  exists x,
    (x = "SampleType" \/ x = "RowCheck") /\ (x ∉ fields)
    /\ readAdat kp ks (pre ++ ("!Name" :: fields) :: post)
       = Raise (ValueError (NotInList x)).
Proof.
  intros Hsec [st Hst] Hmiss.
  pose proof (loop_section _ _ _ _ _ Hst) as Hcur. simpl in Hcur.
  rewrite Hsec in Hcur.
  rewrite (readAdat_app _ _ _ _ _ Hst). simpl. unfold body.
  rewrite Hcur, bool_decide_eq_false_2 by done.
  rewrite (header_row_Name _ _ Hcur). unfold list_index.
  destruct (find_index "SampleType" fields) as [i|] eqn:Hi.
  - destruct Hmiss as [Hmiss|Hmiss].
    { apply find_index_None in Hmiss. congruence. }
    exists "RowCheck". apply find_index_None in Hmiss as Hj. rewrite Hj.
    split; [by right|done].
  - exists "SampleType". split; [by left|].
    split; [by apply find_index_None | done].
Qed.

Lemma Name_row_missing_field_raises_witness :
  exists x,
    (x = "SampleType" \/ x = "RowCheck")
    /\ (x ∉ ["SampleId"; "SampleType"])
    /\ readAdat true true Samples.no_RowCheck
       = Raise (ValueError (NotInList x)).
Proof.
  apply (Name_row_missing_field_raises true true
           [["^ROW_DATA"]] ["SampleId"; "SampleType"] []).
  - reflexivity.
  - eexists. vm_compute. reflexivity.
  - right. apply find_index_None. reflexivity.
Defined.

(** C6: when a row of the [^TABLE_BEGIN] section is reached and no
    [!Name] row was met in [^ROW_DATA] before it, the parse fails at that
    row with the KeyError on 'SampleAnnotNames' (the schema error) and
    returns no result. *)
Theorem table_row_without_schema_fails kp ks pre row post :
  section_from None pre = Some "^TABLE_BEGIN" ->
  schema_of pre = None ->
  (exists st, loop kp ks init pre = Ok st) ->
  readAdat kp ks (pre ++ row :: post) = Raise (KeyError "SampleAnnotNames").
Proof.
  intros Hsec Hschema [st Hst].
  pose proof (loop_section _ _ _ _ _ Hst) as Hcur. simpl in Hcur.
  rewrite Hsec in Hcur.
  destruct (loop_init _ _ _ _ Hst) as (Hn & _). rewrite Hschema in Hn.
  rewrite (readAdat_app _ _ _ _ _ Hst). simpl. unfold body.
  rewrite Hcur, bool_decide_eq_true_2 by done.
  by rewrite (table_row_no_schema _ _ _ _ Hn).
Qed.

Lemma table_row_without_schema_fails_witness :
  readAdat true true (Samples.no_schema ++ [[""; "SeqId"; "10-1"]])
  = Raise (KeyError "SampleAnnotNames").
Proof.
  apply (table_row_without_schema_fails true true Samples.no_schema
           [""; "SeqId"; "10-1"] []).
  - reflexivity.
  - reflexivity.
  - eexists. vm_compute. reflexivity.
Defined.

(** C7: when no column-annotation row of the table is labelled "SeqId",
    no result is returned: if the pass completes, finalization fails with
    the KeyError on 'SeqId' (or, when there is no schema at all, with the
    KeyError on 'SampleAnnotNames' that precedes it). *)
Theorem no_SeqId_row_fails kp ks rows :
  (forall names, schema_of rows = Some names ->
     "SeqId" ∉ map fst (col_rows names (table_section rows))) ->
  exists e,
    readAdat kp ks rows = Raise e
    /\ forall st, loop kp ks init rows = Ok st ->
         finalize kp st = Raise e
         /\ e = KeyError (if schema_of rows is Some _ then "SeqId"
                          else "SampleAnnotNames").
Proof.
  intros Hnone. unfold readAdat.
  destruct (loop kp ks init rows) as [st|e] eqn:Hloop;
    [|exists e; split; [done | intros ? [=]]].
  destruct (loop_init _ _ _ _ Hloop) as (Hn & _ & Htab).
  assert (finalize kp st
          = Raise (KeyError (if schema_of rows is Some _ then "SeqId"
                             else "SampleAnnotNames"))) as Hfin.
  { unfold finalize, assemble. simpl. rewrite Hn.
    destruct (schema_of rows) as [names|] eqn:Hs; [|done]. simpl.
    destruct (Htab names eq_refl) as (Hidx & _).
    rewrite loc_iter_KeyError; [done|]. rewrite Hidx. by apply Hnone. }
  eexists. split; [exact Hfin|]. intros ? [= <-]. done.
Qed.

Lemma no_SeqId_row_fails_witness :
  exists e,
    readAdat true true Samples.no_SeqId = Raise e
    /\ forall st, loop true true init Samples.no_SeqId = Ok st ->
         finalize true st = Raise e
         /\ e = KeyError (if schema_of Samples.no_SeqId is Some _ then "SeqId"
                          else "SampleAnnotNames").
Proof.
  apply (no_SeqId_row_fails true true Samples.no_SeqId).
  intros names [= <-]. apply find_index_None. reflexivity.
Defined.

(** C9: a sample-annotation row of the table whose annotation values are,
    element by element, the schema's field names adds nothing to the
    accumulated sample rows whatever the two flags are: the file parses
    exactly as it does with that row removed. *)
Theorem stray_header_row_excluded kp ks pre row post names :
  section_from None pre = Some "^TABLE_BEGIN" ->
  schema_of pre = Some names ->
  row !! length names = Some "" ->
  take (length names) row = names ->
  (forall st, loop kp ks init pre = Ok st ->
     body kp ks st row = Ok (next_line st)
     /\ sampleAndIntensityData (next_line st) = sampleAndIntensityData st)
  /\ readAdat kp ks (pre ++ row :: post) = readAdat kp ks (pre ++ post).
Proof.
  intros Hsec Hschema Hslot Hstray.
  assert (forall st, loop kp ks init pre = Ok st ->
            body kp ks st row = Ok (next_line st)) as Hbody.
  { intros st Hst.
    pose proof (loop_section _ _ _ _ _ Hst) as Hcur. simpl in Hcur.
    rewrite Hsec in Hcur.
    destruct (loop_init _ _ _ _ Hst) as (Hn & Hinv & _).
    rewrite Hschema in Hn.
    unfold body. rewrite Hcur, bool_decide_eq_true_2 by done.
    rewrite (table_row_sample _ _ _ _ _ Hn Hinv Hslot).
    unfold is_stray_header. by rewrite bool_decide_eq_true_2. }
  split; [intros st Hst; split; [by apply Hbody | done]|].
  destruct (loop kp ks init pre) as [st|e] eqn:Hst.
  - rewrite !(readAdat_app _ _ _ _ _ Hst). simpl.
    rewrite (Hbody st eq_refl). simpl.
    pose proof (loop_same_but_line kp ks post (next_line st) st eq_refl) as H.
    unfold agree in H.
    destruct (loop kp ks (next_line st) post) as [a|e1],
             (loop kp ks st post) as [b|e2]; simpl; try done.
    + by apply finalize_same_but_line.
    + by subst.
  - by rewrite !(readAdat_prefix_Raise _ _ _ _ _ Hst).
Qed.

Lemma stray_header_row_excluded_witness :
  (forall st, loop false false init (take 7 Samples.stray_header) = Ok st ->
     body false false st ["SampleId"; "SampleType"; "RowCheck"; ""; "0"; "0"]
     = Ok (next_line st)
     /\ sampleAndIntensityData (next_line st) = sampleAndIntensityData st)
  /\ readAdat false false Samples.stray_header
     = readAdat false false
         (take 7 Samples.stray_header ++ drop 8 Samples.stray_header).
Proof.
  apply (stray_header_row_excluded false false (take 7 Samples.stray_header)
           ["SampleId"; "SampleType"; "RowCheck"; ""; "0"; "0"]
           (drop 8 Samples.stray_header)
           ["SampleId"; "SampleType"; "RowCheck"]); reflexivity.
Defined.

Lemma assemble_vals kp st a :
  assemble kp st = Ok a ->
  a_vals a = set_SequenceAnnotNames (sequenceDataIndex st) (vals st).
Proof.
  unfold assemble. intros H. do 5 inv_bind H. by injection H as <-.
Qed.

(** The entries of the result that the finalizer does not build. *)
Lemma readAdat_Ok kp ks rows res :
  readAdat kp ks rows = Ok res ->
  exists st a d,
    loop kp ks init rows = Ok st
    /\ assemble kp st = Ok a
    /\ astype (a_sampleAndIntensityData a) (a_seqIds a) = Ok d
    /\ Checksum res = Checksum (vals st)
    /\ Metadata res = Metadata (vals st)
    /\ SampleAnnotNames res = SampleAnnotNames (vals st)
    /\ SequenceAnnotNames res = Some (sequenceDataIndex st)
    /\ SequenceData res = Some (a_sequenceData a)
    /\ SampleAndIntensityData res = Some d.
Proof.
  unfold readAdat, finalize, coerce. intros H.
  inv_bind H. inv_bind H. inv_bind H. injection H as <-.
  exists a, a0, a1. rewrite (assemble_vals _ _ _ Ha0). done.
Qed.

(** C10: the result has a 'Checksum' entry exactly when a line whose
    first field is "!Checksum" stands before the first section marker; a
    "!Checksum" line inside the [^HEADER] section is stored in the
    metadata under the key "!Checksum" and leaves the checksum as it
    was. *)
Theorem Checksum_only_before_sections kp ks rows res :
  readAdat kp ks rows = Ok res ->
  (is_Some (Checksum res)
   <-> exists row, row ∈ preamble rows /\ head row = Some "!Checksum")
  /\ forall pre fields post,
       rows = pre ++ ("!Checksum" :: fields) :: post ->
       section_from None pre = Some "^HEADER" ->
       exists st st' v,
         loop kp ks init pre = Ok st
         /\ body kp ks st ("!Checksum" :: fields) = Ok st'
         /\ fields !! 0 = Some v
         /\ Metadata (vals st') = <["!Checksum":=v]> (Metadata (vals st))
         /\ Checksum (vals st') = Checksum (vals st)
         /\ is_Some (Metadata res !! "!Checksum")
         /\ Checksum res = Checksum (vals st).
Proof.
  intros H.
  apply readAdat_Ok in H
    as (st & a & d & Hloop & _ & _ & Hc & Hm & _).
  split.
  - rewrite Hc.
    rewrite (loop_Checksum _ _ rows init st eq_refl Hloop). simpl.
    split; [intros [[? [=]]|?]; done | by right].
  - intros pre fields post -> Hsec.
    apply loop_app_Ok in Hloop as (st0 & Hpre & Hrest).
    simpl in Hrest. apply bind_Ok in Hrest as (st1 & Hbody & Hrest).
    pose proof (loop_section _ _ _ _ _ Hpre) as Hcur. simpl in Hcur.
    rewrite Hsec in Hcur.
    assert (header_row st0 ("!Checksum" :: fields) = Ok st1) as Hrow.
    { unfold body in Hbody. rewrite Hcur in Hbody.
      by rewrite bool_decide_eq_false_2 in Hbody. }
    destruct (header_row_vals _ _ _ Hrow) as (Hck & _ & _ & Hmeta).
    destruct (Hmeta Hcur eq_refl) as (v & Hv & Hmeta').
    rewrite Hcur in Hck. rewrite bool_decide_eq_false_2 in Hck by done.
    simpl in Hck.
    exists st0, st1, v. repeat split; try done.
    + rewrite Hm. apply (loop_Metadata_grows _ _ _ _ _ _ Hrest).
      rewrite Hmeta', lookup_insert_eq. eauto.
    + rewrite Hc, <- Hck.
      apply (loop_Checksum_fixed _ _ _ _ _ ltac:(
        rewrite (body_section _ _ _ _ _ Hbody), Hcur; done) Hrest).
Qed.

Lemma Checksum_only_before_sections_witness :
  exists res,
    readAdat true true Samples.late_Checksum = Ok res
    /\ Checksum res = None
    /\ Metadata res !! "!Checksum" = Some "abc123"
    /\ ((is_Some (Checksum res)
         <-> exists row, row ∈ preamble Samples.late_Checksum
                         /\ head row = Some "!Checksum")
        /\ forall pre fields post,
             Samples.late_Checksum = pre ++ ("!Checksum" :: fields) :: post ->
             section_from None pre = Some "^HEADER" ->
             exists st st' v,
               loop true true init pre = Ok st
               /\ body true true st ("!Checksum" :: fields) = Ok st'
               /\ fields !! 0 = Some v
               /\ Metadata (vals st')
                  = <["!Checksum":=v]> (Metadata (vals st))
               /\ Checksum (vals st') = Checksum (vals st)
               /\ is_Some (Metadata res !! "!Checksum")
               /\ Checksum res = Checksum (vals st)).
Proof.
  eexists. split; [vm_compute; reflexivity|].
  split; [reflexivity|]. split; [reflexivity|].
  apply (Checksum_only_before_sections true true Samples.late_Checksum).
  vm_compute. reflexivity.
Defined.

Lemma RangeIndex_length n : length (RangeIndex n) = n.
Proof. unfold RangeIndex. by rewrite length_map, length_seq. Qed.

(** The pass and the assembly behind a result, in terms of the file. *)
Lemma readAdat_Ok_tables kp ks rows res :
  readAdat kp ks rows = Ok res ->
  exists st a d names ids,
    loop kp ks init rows = Ok st
    /\ assemble kp st = Ok a
    /\ astype (a_sampleAndIntensityData a) (a_seqIds a) = Ok d
    /\ schema_of rows = Some names
    /\ SampleAnnotNames res = Some names
    /\ SequenceData res = Some (a_sequenceData a)
    /\ SampleAndIntensityData res = Some d
    /\ a_seqIds a = map (String.append "SeqId.") ids
    /\ length ids = width (filtered_sequenceData kp st)
    /\ (exists i, sequenceDataIndex st !! i = Some "SeqId")
    /\ (forall i, sequenceDataIndex st !! i = Some "SeqId" ->
          filtered_sequenceData kp st !! i = Some ids)
    /\ a_sequenceData a
       = {| df_index := map VStr (sequenceDataIndex st);
            df_columns := map VStr (a_seqIds a);
            df_dtypes := replicate (length ids) object;
            df_data := columns_of_rows (length ids)
                         (filtered_sequenceData kp st) |}
    /\ a_sampleAndIntensityData a
       = {| df_index := RangeIndex (length (sampleAndIntensityData st));
            df_columns := map VStr (names ++ a_seqIds a);
            df_dtypes := replicate (length (names ++ a_seqIds a)) object;
            df_data := columns_of_rows (length (names ++ a_seqIds a))
                         (sampleAndIntensityData st) |}
    /\ (sampleAndIntensityData st = []
        \/ width (sampleAndIntensityData st) = length names + length ids)
    /\ df_index d = RangeIndex (length (sampleAndIntensityData st))
    /\ df_columns d = map VStr (names ++ a_seqIds a).
Proof.
  intros H.
  apply readAdat_Ok in H
    as (st & a & d & Hloop & Hasm & Hd & _ & _ & Hn & _ & Hs & Hdd).
  destruct (loop_init _ _ _ _ Hloop) as (Hschema & _ & Htab).
  assert (length (sequenceData st) = length (sequenceDataIndex st)) as Hlen.
  { destruct (schema_of rows) as [names|] eqn:Hsc.
    - destruct (Htab names eq_refl) as (-> & -> & _).
      by rewrite !length_map.
    - unfold assemble in Hasm. simpl in Hasm. by rewrite Hschema in Hasm. }
  destruct (assemble_Ok _ _ _ Hlen Hasm)
    as (names & ids & Hnames & _ & Hids & Hw & Hex & Hall & Hsdf & Hddf & Hwd).
  exists st, a, d, names, ids.
  destruct (astype_Ok _ _ _ Hd) as (Hi & Hc & _).
  rewrite Hddf in Hi, Hc. simpl in Hi, Hc.
  repeat split; try done; congruence.
Qed.

(** C3 (amended): on success the sample table has one row for each
    sample-annotation row of the table section that is not a repetition
    of the schema line and passes the configured filters (SampleType
    equal to "Sample" when keepOnlySamples, RowCheck equal to "PASS" when
    keepOnlyPasses, compared as exact strings), and so never more rows
    than the section has sample-annotation rows. *)
Theorem sample_row_count kp ks rows res :
  readAdat kp ks rows = Ok res ->
  exists names d,
    schema_of rows = Some names
    /\ SampleAnnotNames res = Some names
    /\ SampleAndIntensityData res = Some d
    /\ nrows d
       = length (List.filter
                   (fun row => negb (is_stray_header names row)
                               && passes_filters kp ks names row)
                   (sample_rows names (table_section rows)))
    /\ nrows d <= length (sample_rows names (table_section rows)).
Proof.
  intros H.
  apply readAdat_Ok_tables in H
    as (st & a & d & names & ids & Hloop & _ & _ & Hsc & Hn & _ & Hd & _ & _
        & _ & _ & _ & _ & _ & Hidx & _).
  destruct (loop_init _ _ _ _ Hloop) as (_ & _ & Htab).
  destruct (Htab names Hsc) as (_ & _ & _ & Hlen).
  exists names, d. unfold nrows. rewrite Hidx, RangeIndex_length, Hlen.
  repeat split; try done. apply filter_length_le.
Qed.

Lemma sample_row_count_witness :
  exists res names d,
    readAdat false false Samples.stray_header = Ok res
    /\ schema_of Samples.stray_header = Some names
    /\ SampleAnnotNames res = Some names
    /\ SampleAndIntensityData res = Some d
    /\ nrows d
       = length (List.filter
                   (fun row => negb (is_stray_header names row)
                               && passes_filters false false names row)
                   (sample_rows names (table_section Samples.stray_header)))
    /\ nrows d
       <= length (sample_rows names (table_section Samples.stray_header)).
Proof.
  eexists.
  assert (readAdat false false Samples.stray_header = Ok _) as H
    by (vm_compute; reflexivity).
  destruct (sample_row_count false false Samples.stray_header _ H)
    as (names & d & Hrest).
  exists names, d. split; [exact H | exact Hrest].
Defined.

(** C3 as stated fails: with both filters off, a repeated schema line
    passes the configured filters yet is left out of the table. *)
Lemma sample_row_count_counterexample :
  exists res names d,
    readAdat false false Samples.stray_header = Ok res
    /\ SampleAnnotNames res = Some names
    /\ SampleAndIntensityData res = Some d
    /\ nrows d = 1
    /\ length (List.filter (passes_filters false false names)
                 (sample_rows names (table_section Samples.stray_header)))
       = 2.
Proof. vm_compute. eexists _, _, _. repeat split. Qed.

Lemma col_rows_lookup names tbl label v :
  (label, v) ∈ col_rows names tbl ->
  exists i, map fst (col_rows names tbl) !! i = Some label
            /\ map snd (col_rows names tbl) !! i = Some v.
Proof.
  intros [i Hi]%list_elem_of_lookup. exists i.
  change (map fst ?l) with (fst <$> l). change (map snd ?l) with (snd <$> l).
  by rewrite !list_lookup_fmap, Hi.
Qed.

(** The mask in force at the end of the pass, from the file. *)
Lemma final_mask kp ks rows st names :
  loop kp ks init rows = Ok st ->
  schema_of rows = Some names ->
  colPassFlag st
  = if kp
    then map is_PASS
           <$> last_labelled "ColCheck" (col_rows names (table_section rows))
    else None.
Proof.
  intros Hloop Hsc.
  destruct (loop_init _ _ _ _ Hloop) as (_ & _ & Htab).
  destruct (Htab names Hsc) as (_ & _ & -> & _).
  unfold flag_after. destruct kp; [|done].
  by destruct (last_labelled "ColCheck" _).
Qed.

(** C2 (amended): on success, when keepOnlyPasses is true and the last
    ColCheck row of the table carries at least one value, the sample
    table has as many readout columns as that row has values equal to
    "PASS"; otherwise (keepOnlyPasses false, no ColCheck row, or a
    ColCheck row without values) it has as many as the SeqId row has
    values, the total protein count.  The mask is the ColCheck row read
    position by position: true exactly where the value is "PASS". *)
Theorem readout_column_count kp ks rows res :
  readAdat kp ks rows = Ok res ->
  exists names d st,
    schema_of rows = Some names
    /\ SampleAndIntensityData res = Some d
    /\ loop kp ks init rows = Ok st
    /\ let cols := col_rows names (table_section rows) in
       let readouts := length (df_columns d) - length names in
       (forall c, kp = true -> last_labelled "ColCheck" cols = Some c ->
          c <> [] -> readouts = count_PASS c)
       /\ (kp = false \/ last_labelled "ColCheck" cols = None
           \/ last_labelled "ColCheck" cols = Some [] ->
           forall v, ("SeqId", v) ∈ cols -> readouts = length v)
       /\ colPassFlag st
          = (if kp then map is_PASS <$> last_labelled "ColCheck" cols
             else None)
       /\ forall c i, map is_PASS c !! i = Some true
                      <-> c !! i = Some "PASS".
Proof.
  intros H.
  apply readAdat_Ok_tables in H
    as (st & a & d & names & ids & Hloop & _ & _ & Hsc & _ & _ & Hd & Hids
        & Hw & _ & Hall & _ & _ & _ & _ & Hcols).
  pose proof (final_mask _ _ _ _ _ Hloop Hsc) as Hflag.
  destruct (loop_init _ _ _ _ Hloop) as (_ & _ & Htab).
  destruct (Htab names Hsc) as (Hidx & Hdat & _ & _).
  exists names, d, st. repeat split; try done;
    try (by apply mask_lookup); rewrite Hcols, length_map, length_app, Hids,
      length_map, Nat.add_comm, Nat.add_sub.
  - intros c -> Hlast Hne. rewrite Hlast in Hflag. simpl in Hflag.
    rewrite Hw, count_PASS_mask. unfold filtered_sequenceData.
    rewrite Hflag. destruct c as [|v c]; [done|]. simpl andb. cbv iota.
    unfold mask_of, default.
    apply Nat.le_antisymm.
    + apply width_bound. intros r Hr.
      apply list_elem_of_fmap in Hr as (r' & -> & _).
      apply zip_filter_length_le.
    + rewrite <- (zip_filter_map_length is_PASS (v :: c)).
      apply width_ge. apply list_elem_of_fmap. exists (v :: c).
      split; [done|]. rewrite Hdat.
      apply last_labelled_elem in Hlast.
      apply list_elem_of_fmap. exists ("ColCheck", v :: c). done.
  - intros Hcase v Hv.
    assert (filtered_sequenceData kp st = sequenceData st) as Hfil.
    { unfold filtered_sequenceData. rewrite Hflag.
      destruct Hcase as [->|[->| ->]]; [done| |]; by destruct kp. }
    apply col_rows_lookup in Hv as (i & Hi & Hvi).
    rewrite <- Hidx in Hi. rewrite <- Hdat in Hvi.
    apply Hall in Hi. rewrite Hfil in Hi. congruence.
Qed.

Lemma readout_column_count_witness :
  exists res names d st,
    readAdat true true Samples.minimal = Ok res
    /\ schema_of Samples.minimal = Some names
    /\ SampleAndIntensityData res = Some d
    /\ loop true true init Samples.minimal = Ok st
    /\ let cols := col_rows names (table_section Samples.minimal) in
       let readouts := length (df_columns d) - length names in
       (forall c, true = true -> last_labelled "ColCheck" cols = Some c ->
          c <> [] -> readouts = count_PASS c)
       /\ (true = false \/ last_labelled "ColCheck" cols = None
           \/ last_labelled "ColCheck" cols = Some [] ->
           forall v, ("SeqId", v) ∈ cols -> readouts = length v)
       /\ colPassFlag st
          = (map is_PASS <$> last_labelled "ColCheck" cols)
       /\ forall c i, map is_PASS c !! i = Some true
                      <-> c !! i = Some "PASS".
Proof.
  eexists.
  assert (readAdat true true Samples.minimal = Ok _) as H
    by (vm_compute; reflexivity).
  destruct (readout_column_count true true Samples.minimal _ H)
    as (names & d & st & Hrest).
  exists names, d, st. split; [exact H | exact Hrest].
Defined.

(** C2 as stated fails: with keepOnlyPasses and a ColCheck row that holds
    no value, no protein has the value "PASS" and yet the sample table
    keeps its readout column. *)
Lemma readout_column_count_counterexample :
  exists res names d c,
    readAdat true true Samples.empty_ColCheck = Ok res
    /\ SampleAnnotNames res = Some names
    /\ SampleAndIntensityData res = Some d
    /\ SequenceAnnotNames res = Some ["ColCheck"; "SeqId"]
    /\ last_labelled "ColCheck"
         (col_rows names (table_section Samples.empty_ColCheck)) = Some c
    /\ count_PASS c = 0
    /\ length (df_columns d) - length names = 1.
Proof. vm_compute. eexists _, _, _, _. repeat split. Qed.

Lemma kept_readouts_under_mask check vals :
  kept_readouts true (map is_PASS <$> check) vals = under_mask check vals.
Proof. unfold kept_readouts. by destruct check as [[|v c]|]. Qed.

(** C5 (amended): with keepOnlyPasses, a retained sample row is appended
    with its readouts filtered by the mask of the last ColCheck row that
    came before it, provided that row carries a value, and with all its
    readouts otherwise (in particular when no ColCheck row came before);
    the entry is still there, unchanged, at the end of the pass.  The
    accumulated column-annotation rows are all filtered at the end of the
    pass by the mask of the last ColCheck row of the table, in their
    order, again provided that row carries a value; they are left as
    read otherwise.  The two tables are built from these lists. *)
Theorem mask_is_not_retroactive_on_samples ks rows st names :
  loop true ks init rows = Ok st ->
  schema_of rows = Some names ->
  (forall pre row post,
     rows = pre ++ row :: post ->
     section_from None pre = Some "^TABLE_BEGIN" ->
     is_sample_row names row = true ->
     retained true ks names row = true ->
     sampleAndIntensityData st
       !! length (List.filter (retained true ks names)
                    (sample_rows names (table_section pre)))
     = Some (take (length names) row
             ++ under_mask
                  (last_labelled "ColCheck"
                     (col_rows names (table_section pre)))
                  (drop (length names + 1) row)))
  /\ filtered_sequenceData true st
     = map (fun r =>
              under_mask
                (last_labelled "ColCheck"
                   (col_rows names (table_section rows))) r)
         (map snd (col_rows names (table_section rows)))
  /\ forall a, assemble true st = Ok a ->
       df_data (a_sampleAndIntensityData a)
       = columns_of_rows (ncols (a_sampleAndIntensityData a))
           (sampleAndIntensityData st)
       /\ df_data (a_sequenceData a)
          = columns_of_rows (ncols (a_sequenceData a))
              (filtered_sequenceData true st).
Proof.
  intros Hloop Hsc.
  destruct (loop_init _ _ _ _ Hloop) as (Hn & _ & Htab).
  destruct (Htab names Hsc) as (Hidx & Hdat & _ & _).
  pose proof (final_mask _ _ _ _ _ Hloop Hsc) as Hflag.
  split; [|split].
  - intros pre row post -> Hsec Hsample Hret.
    apply loop_app_Ok in Hloop as (st0 & Hpre & Hrest).
    pose proof (loop_section _ _ _ _ _ Hpre) as Hcur. simpl in Hcur.
    rewrite Hsec in Hcur.
    destruct (loop_init _ _ _ _ Hpre) as (Hn0 & Hinv0 & Htab0).
    pose proof Hrest as Hrest'.
    simpl in Hrest. apply bind_Ok in Hrest as (st1 & Hbody & Hpost).
    unfold body in Hbody. rewrite Hcur in Hbody.
    rewrite bool_decide_eq_true_2 in Hbody by done.
    destruct (schema_of pre) as [names0|] eqn:Hsc0;
      [|by rewrite (table_row_no_schema _ _ _ _ Hn0) in Hbody].
    destruct (loop_table _ _ _ _ _ _ Hcur Hn0 Hinv0 Hrest') as (Hv & _).
    assert (names0 = names) as -> by congruence.
    destruct (Htab0 names eq_refl) as (_ & _ & Hflag0 & Hlen0).
    apply bool_decide_eq_true_1 in Hsample.
    rewrite (table_row_sample _ _ _ _ _ Hn0 Hinv0 Hsample) in Hbody.
    unfold retained in Hret. apply andb_true_iff in Hret as [Hs Hp].
    apply negb_true_iff in Hs. rewrite Hs, Hp in Hbody.
    injection Hbody as <-.
    match type of Hpost with
    | loop _ _ ?s _ = _ =>
        destruct (loop_table true ks post s st names Hcur Hn0 Hinv0 Hpost)
          as (_ & _ & _ & _ & _ & _ & extra & Hsamp & _)
    end.
    simpl in Hsamp. rewrite Hsamp, <- Hlen0, <- app_assoc. simpl.
    rewrite list_lookup_middle by done. do 2 f_equal.
    rewrite Hflag0. unfold flag_after.
    rewrite <- kept_readouts_under_mask.
    by destruct (last_labelled "ColCheck" _).
  - unfold filtered_sequenceData. rewrite Hflag, Hdat.
    destruct (last_labelled "ColCheck" _) as [[|v c]|]; simpl.
    + by rewrite map_id.
    + done.
    + by rewrite map_id.
  - intros a Ha.
    assert (length (sequenceData st) = length (sequenceDataIndex st)) as Hl
      by (by rewrite Hidx, Hdat, !length_map).
    destruct (assemble_Ok _ _ _ Hl Ha)
      as (names' & ids & _ & _ & Hids & _ & _ & _ & -> & -> & _).
    unfold ncols. simpl. rewrite !length_map. split; [done|].
    by rewrite Hids, length_map.
Qed.

Lemma mask_is_not_retroactive_on_samples_witness :
  exists st,
    loop true true init Samples.late_ColCheck = Ok st
    /\ sampleAndIntensityData st
       = [ ["s1"; "Sample"; "PASS"; "1.5"; "2.5"];
           ["s2"; "Sample"; "PASS"; "3.5"] ]
    /\ filtered_sequenceData true st = [ ["10-1"]; ["PASS"] ]
    /\ sampleAndIntensityData st
         !! length (List.filter
                      (retained true true ["SampleId"; "SampleType"; "RowCheck"])
                      (sample_rows ["SampleId"; "SampleType"; "RowCheck"]
                         (table_section (take 7 Samples.late_ColCheck))))
       = Some ["s1"; "Sample"; "PASS"; "1.5"; "2.5"].
Proof.
  eexists.
  assert (loop true true init Samples.late_ColCheck = Ok _) as H
    by (vm_compute; reflexivity).
  split; [exact H|]. split; [reflexivity|]. split; [reflexivity|].
  destruct (mask_is_not_retroactive_on_samples true Samples.late_ColCheck _
              ["SampleId"; "SampleType"; "RowCheck"] H eq_refl) as (Hs & _).
  exact (Hs (take 7 Samples.late_ColCheck)
           ["s1"; "Sample"; "PASS"; ""; "1.5"; "2.5"]
           (drop 8 Samples.late_ColCheck)
           eq_refl eq_refl eq_refl eq_refl).
Defined.

(** C5 as stated fails: a ColCheck row that holds no value establishes an
    empty mask, and the accumulated column-annotation rows are then not
    filtered down to the mask-true positions (there are none) but left
    as read. *)
Lemma mask_is_not_retroactive_on_samples_counterexample :
  exists st m,
    loop true true init Samples.empty_ColCheck = Ok st
    /\ sequenceDataIndex st = ["ColCheck"; "SeqId"]
    /\ colPassFlag st = Some m
    /\ map (fun r => zip_filter r m) (sequenceData st) = [ []; [] ]
    /\ filtered_sequenceData true st = [ []; ["x"] ].
Proof. vm_compute. eexists _, _. repeat split. Qed.

(** ** The readout columns *)

Lemma columns_of_rows_lookup w data j :
  j < w ->
  columns_of_rows w data !! j = Some (map (fun r => cell_of r j) data).
Proof.
  intros Hj. unfold columns_of_rows.
  change (map ?f (seq 0 w)) with (f <$> seq 0 w).
  by rewrite list_lookup_fmap, lookup_seq_lt.
Qed.

(** Column [j] of the assembled sample table, with its label. *)
Lemma sample_table_column (cols : list string) data j lab :
  cols !! j = Some lab ->
  zip (map VStr cols) (columns_of_rows (length cols) data) !! j
  = Some (VStr lab, map (fun r => cell_of r j) data).
Proof.
  intros Hj. rewrite lookup_zip_with.
  change (map VStr cols) with (VStr <$> cols).
  rewrite list_lookup_fmap, Hj. simpl.
  rewrite columns_of_rows_lookup by (by eapply lookup_lt_Some). done.
Qed.







(** ** Further properties: rows that stop the parse *)

Lemma readAdat_body_Raise kp ks pre row post st e :
  loop kp ks init pre = Ok st ->
  body kp ks st row = Raise e ->
  readAdat kp ks (pre ++ row :: post) = Raise e.
Proof.
  intros Hst Hb. rewrite (readAdat_app _ _ _ _ _ Hst). simpl. by rewrite Hb.
Qed.

(** A blank line (a row without fields) stops the parse with IndexError,
    before the table at [row[0]] and inside it at [row[rowDataLen]]. *)
Theorem blank_line_fails kp ks pre post :
  (exists st, loop kp ks init pre = Ok st) ->
  (section_from None pre = Some "^TABLE_BEGIN" -> is_Some (schema_of pre)) ->
  readAdat kp ks (pre ++ [] :: post) = Raise IndexError.
Proof.
  intros [st Hst] Hschema.
  apply (readAdat_body_Raise _ _ _ _ _ _ _ Hst).
  pose proof (loop_section _ _ _ _ _ Hst) as Hcur. simpl in Hcur.
  destruct (loop_init _ _ _ _ Hst) as (Hn & _).
  unfold body. case_bool_decide as Hsec; [|done].
  rewrite Hcur in Hsec. destruct (Hschema Hsec) as [names Hnames].
  rewrite Hnames in Hn. by apply (table_row_short _ _ _ names).
Qed.

Lemma blank_line_fails_witness :
  readAdat true true (Samples.heading ++ [] :: drop 6 Samples.minimal)
  = Raise IndexError.
Proof.
  apply (blank_line_fails true true Samples.heading (drop 6 Samples.minimal)).
  - eexists. vm_compute. reflexivity.
  - intros _. eexists. reflexivity.
Defined.

(** A table row that has no field at the position after the sample
    annotations (it has at most as many fields as the schema) stops the
    parse with IndexError; a section marker standing alone on a line of
    the table is such a row. *)
Theorem short_table_row_fails kp ks pre row post names :
  (exists st, loop kp ks init pre = Ok st) ->
  section_from None pre = Some "^TABLE_BEGIN" ->
  schema_of pre = Some names ->
  length row <= length names ->
  readAdat kp ks (pre ++ row :: post) = Raise IndexError.
Proof.
  intros [st Hst] Hsec Hschema Hlen.
  apply (readAdat_body_Raise _ _ _ _ _ _ _ Hst).
  pose proof (loop_section _ _ _ _ _ Hst) as Hcur. simpl in Hcur.
  rewrite Hsec in Hcur.
  destruct (loop_init _ _ _ _ Hst) as (Hn & _). rewrite Hschema in Hn.
  unfold body. rewrite Hcur, bool_decide_eq_true_2 by done.
  apply (table_row_short _ _ _ names); [done|].
  by apply lookup_ge_None.
Qed.

Lemma short_table_row_fails_witness :
  readAdat true true (Samples.heading ++ ["^HEADER"] :: drop 6 Samples.minimal)
  = Raise IndexError.
Proof.
  apply (short_table_row_fails true true Samples.heading ["^HEADER"]
           (drop 6 Samples.minimal) ["SampleId"; "SampleType"; "RowCheck"]).
  - eexists. vm_compute. reflexivity.
  - reflexivity.
  - reflexivity.
  - simpl. lia.
Defined.

(** A line with a key and no value stops the parse with IndexError at
    [row[1]]: a line of the [^HEADER] section, or a "!Checksum" line
    before the first section. *)
Theorem line_without_value_fails kp ks pre key post :
  (exists st, loop kp ks init pre = Ok st) ->
  key ∉ sectionTitles ->
  section_from None pre = Some "^HEADER"
  \/ (section_from None pre = None /\ key = "!Checksum") ->
  readAdat kp ks (pre ++ [key] :: post) = Raise IndexError.
Proof.
  intros [st Hst] Hkey Hcase.
  apply (readAdat_body_Raise _ _ _ _ _ _ _ Hst).
  pose proof (loop_section _ _ _ _ _ Hst) as Hcur. simpl in Hcur.
  unfold body, header_row. simpl.
  rewrite (bool_decide_eq_false_2 (key ∈ sectionTitles)) by done.
  destruct Hcase as [Hsec|[Hsec ->]]; rewrite Hsec in Hcur; rewrite Hcur.
  - reflexivity.
  - reflexivity.
Qed.

Lemma line_without_value_fails_witness :
  readAdat true true ([["^HEADER"]] ++ ["!Title"] :: drop 3 Samples.minimal)
  = Raise IndexError.
Proof.
  apply (line_without_value_fails true true [["^HEADER"]] "!Title"
           (drop 3 Samples.minimal)).
  - eexists. vm_compute. reflexivity.
  - by vm_compute.
  - left. reflexivity.
Defined.

(** ** Further properties: rows that leave no trace *)

Lemma readAdat_skip kp ks pre row post :
  (forall st, loop kp ks init pre = Ok st ->
     exists st', body kp ks st row = Ok st' /\ same_but_line st' st) ->
  readAdat kp ks (pre ++ row :: post) = readAdat kp ks (pre ++ post).
Proof.
  intros Hbody.
  destruct (loop kp ks init pre) as [st|e] eqn:Hst.
  - rewrite !(readAdat_app _ _ _ _ _ Hst). simpl.
    destruct (Hbody st eq_refl) as (st' & -> & Hsame). simpl.
    pose proof (loop_same_but_line kp ks post st' st Hsame) as H.
    unfold agree in H.
    destruct (loop kp ks st' post) as [a|e1],
             (loop kp ks st post) as [b|e2]; simpl; try done.
    + by apply finalize_same_but_line.
    + by subst.
  - by rewrite !(readAdat_prefix_Raise _ _ _ _ _ Hst).
Qed.

(** Lines the reader does nothing with: a line before the first section
    that is not a "!Checksum" line, any line of [^COL_DATA], and a line
    of [^ROW_DATA] other than the "!Name" line.  The file parses exactly
    as it does without such a line. *)
Theorem unused_line_has_no_effect kp ks pre row0 fields post :
  row0 ∉ sectionTitles ->
  (section_from None pre = None /\ row0 <> "!Checksum")
  \/ section_from None pre = Some "^COL_DATA"
  \/ (section_from None pre = Some "^ROW_DATA" /\ row0 <> "!Name") ->
  readAdat kp ks (pre ++ (row0 :: fields) :: post) = readAdat kp ks (pre ++ post).
Proof.
  intros Htitle Hcase. apply readAdat_skip. intros st Hst.
  pose proof (loop_section _ _ _ _ _ Hst) as Hcur. simpl in Hcur.
  exists (next_line st). split; [|done].
  unfold body, header_row. simpl.
  rewrite (bool_decide_eq_false_2 (row0 ∈ sectionTitles)) by done.
  destruct Hcase as [[Hsec Hne]|[Hsec|[Hsec Hne]]];
    rewrite Hsec in Hcur; rewrite Hcur; simpl.
  - rewrite (bool_decide_eq_false_2 (row0 = "!Checksum")) by done. done.
  - done.
  - rewrite (bool_decide_eq_false_2 (row0 = "!Name")) by done. done.
Qed.

Lemma unused_line_has_no_effect_witness :
  readAdat true true
    (take 4 Samples.minimal ++ ["!Type"; "String"; "String"; "String"]
       :: drop 4 Samples.minimal)
  = readAdat true true (take 4 Samples.minimal ++ drop 4 Samples.minimal).
Proof.
  apply (unused_line_has_no_effect true true (take 4 Samples.minimal)
           "!Type" ["String"; "String"; "String"] (drop 4 Samples.minimal)).
  - by vm_compute.
  - right. right. split; [reflexivity | done].
Defined.

(** A sample row that is not retained (a repeated schema line, or a row
    that one of the enabled filters rejects) changes nothing, not even
    the line counter: the file parses exactly as it does without it. *)
Theorem excluded_sample_row_has_no_effect kp ks pre row post names :
  section_from None pre = Some "^TABLE_BEGIN" ->
  schema_of pre = Some names ->
  is_sample_row names row = true ->
  retained kp ks names row = false ->
  readAdat kp ks (pre ++ row :: post) = readAdat kp ks (pre ++ post).
Proof.
  intros Hsec Hschema Hsample Hret. apply readAdat_skip. intros st Hst.
  pose proof (loop_section _ _ _ _ _ Hst) as Hcur. simpl in Hcur.
  rewrite Hsec in Hcur.
  destruct (loop_init _ _ _ _ Hst) as (Hn & Hinv & _).
  rewrite Hschema in Hn.
  apply bool_decide_eq_true_1 in Hsample.
  unfold body. rewrite Hcur, bool_decide_eq_true_2 by done.
  rewrite (table_row_sample _ _ _ _ _ Hn Hinv Hsample).
  unfold retained in Hret.
  destruct (is_stray_header names row); [by eexists|].
  simpl in Hret. rewrite Hret. by eexists.
Qed.

Lemma excluded_sample_row_has_no_effect_witness :
  readAdat true true
    (take 8 Samples.minimal
       ++ ["c1"; "Calibrator"; "PASS"; ""; "9"; "9"] :: drop 8 Samples.minimal)
  = readAdat true true (take 8 Samples.minimal ++ drop 8 Samples.minimal).
Proof.
  apply (excluded_sample_row_has_no_effect true true (take 8 Samples.minimal)
           ["c1"; "Calibrator"; "PASS"; ""; "9"; "9"]
           (drop 8 Samples.minimal)
           ["SampleId"; "SampleType"; "RowCheck"]); reflexivity.
Defined.

(** ** Further properties: the checksum, the metadata and the names *)

Lemma loop_Checksum_value kp ks rows : forall st st',
  curSection st = None ->
  loop kp ks st rows = Ok st' ->
  Checksum (vals st')
  = match last (List.filter is_Checksum_row (preamble rows)) with
    | Some row => row !! 1
    | None => Checksum (vals st)
    end.
Proof.
  induction rows as [|r rows IH]; intros st st' Hsec H; simpl in *.
  { by injection H as <-. }
  inv_bind H. pose proof (body_section _ _ _ _ _ Ha) as Hs.
  unfold body in Ha. rewrite bool_decide_eq_false_2 in Ha by congruence.
  apply header_row_vals in Ha as (Hc & _).
  rewrite Hsec, bool_decide_eq_true_2 in Hc by done. simpl in Hc.
  unfold section_after in Hs. rewrite Hsec in Hs.
  rewrite bool_decide_eq_false_2 in Hs by done.
  destruct (is_title r) eqn:Ht; simpl.
  - rewrite (loop_Checksum_fixed _ _ _ _ _ ltac:(
      rewrite Hs; destruct r; [done | simpl; congruence]) H).
    assert (is_Checksum_row r = false) as Hn.
    { unfold is_Checksum_row. apply bool_decide_eq_false_2.
      destruct r as [|r0 ?]; [done|]. simpl in *. intros [= ->].
      by vm_compute in Ht. }
    by rewrite Hn in Hc.
  - rewrite (IH a st' ltac:(congruence) H), Hc.
    destruct (is_Checksum_row r); simpl; [|done].
    rewrite last_cons. by destruct (last _).
Qed.

(** On success the checksum returned is the second field of the last
    "!Checksum" line that stands before the first section marker, and
    there is none when there is no such line. *)
Theorem Checksum_is_last_preamble_value kp ks rows res :
  readAdat kp ks rows = Ok res ->
  Checksum res
  = (row ← last (List.filter is_Checksum_row (preamble rows)); row !! 1).
Proof.
  intros H.
  apply readAdat_Ok in H as (st & a & d & Hloop & _ & _ & -> & _).
  rewrite (loop_Checksum_value kp ks rows init st eq_refl Hloop). simpl.
  by destruct (last _).
Qed.

Lemma Checksum_is_last_preamble_value_witness :
  exists res,
    readAdat true true (["!Checksum"; "old"] :: Samples.minimal) = Ok res
    /\ Checksum res = Some "abc123".
Proof.
  eexists.
  assert (readAdat true true (["!Checksum"; "old"] :: Samples.minimal) = Ok _)
    as H by (vm_compute; reflexivity).
  split; [exact H|].
  rewrite (Checksum_is_last_preamble_value true true _ _ H). reflexivity.
Defined.

(** What a row outside the table does to the metadata. *)
Lemma header_row_Metadata st row st' :
  header_row st row = Ok st' ->
  Metadata (vals st')
  = match row with
    | key :: val :: _ =>
        if bool_decide (curSection st = Some "^HEADER") && negb (is_title row)
        then <[key:=val]> (Metadata (vals st))
        else Metadata (vals st)
    | _ => Metadata (vals st)
    end.
Proof.
  unfold header_row, is_title. intros H.
  inv_bind H. apply getitem_Ok in Ha.
  destruct row as [|row0 fields]; [done|]. simpl in Ha. injection Ha as ->.
  destruct (bool_decide (a ∈ sectionTitles)) eqn:Ht; simpl.
  { injection H as <-. simpl. rewrite andb_false_r. by destruct fields. }
  rewrite andb_true_r.
  destruct (bool_decide (curSection st = None)) eqn:Hnone; simpl in H.
  { apply bool_decide_eq_true_1 in Hnone.
    rewrite (bool_decide_eq_false_2 (curSection st = Some "^HEADER"))
      by congruence.
    destruct (bool_decide (a = "!Checksum")).
    - inv_bind H. injection H as <-. simpl. by destruct fields.
    - rewrite (bool_decide_eq_false_2 (curSection st = Some "^HEADER")) in H
        by congruence.
      rewrite !(bool_decide_eq_false_2 (curSection st = Some _)) in H
        by congruence.
      simpl in H. injection H as <-. by destruct fields. }
  destruct (bool_decide (curSection st = Some "^HEADER")) eqn:Hh.
  { inv_bind H. apply getitem_Ok in Ha.
    destruct fields as [|val rest]; [done|]. simpl in Ha. injection Ha as ->.
    by injection H as <-. }
  destruct (bool_decide (curSection st = Some "^ROW_DATA")
            || bool_decide (curSection st = Some "^COL_DATA"));
    [|injection H as <-; by destruct fields].
  destruct (bool_decide (curSection st = Some "^ROW_DATA")
            && bool_decide (a = "!Name"));
    [|injection H as <-; by destruct fields].
  inv_bind H. inv_bind H. injection H as <-. by destruct fields.
Qed.

Lemma body_Metadata kp ks st row st' :
  body kp ks st row = Ok st' ->
  Metadata (vals st')
  = match row with
    | key :: val :: _ =>
        if bool_decide (curSection st = Some "^HEADER") && negb (is_title row)
        then <[key:=val]> (Metadata (vals st))
        else Metadata (vals st)
    | _ => Metadata (vals st)
    end.
Proof.
  unfold body. case_bool_decide as Hsec; intros H.
  - apply table_row_keeps in H as [-> _]. rewrite Hsec.
    rewrite (bool_decide_eq_false_2 (Some _ = Some "^HEADER")) by done.
    by destruct row as [|? [|? ?]].
  - by apply header_row_Metadata.
Qed.

Lemma loop_Metadata_other kp ks key rows : forall st st',
  loop kp ks st rows = Ok st' ->
  Forall (fun row => head row <> Some key) rows ->
  Metadata (vals st') !! key = Metadata (vals st) !! key.
Proof.
  induction rows as [|r rows IH]; intros st st' H Hall; simpl in *.
  { by injection H as <-. }
  inv_bind H. apply Forall_cons in Hall as [Hr Hall].
  rewrite (IH _ _ H Hall), (body_Metadata _ _ _ _ _ Ha).
  destruct r as [|k [|v rest]]; try done.
  destruct (_ && _); [|done].
  apply lookup_insert_ne. simpl in Hr. congruence.
Qed.

(** On success, a key/value line of the [^HEADER] section that is not
    followed by any line with the same first field is in the metadata:
    the last value given for a key is the one kept. *)
Theorem Metadata_keeps_last_value kp ks pre key val fields post res :
  readAdat kp ks (pre ++ (key :: val :: fields) :: post) = Ok res ->
  section_from None pre = Some "^HEADER" ->
  key ∉ sectionTitles ->
  Forall (fun row => head row <> Some key) post ->
  Metadata res !! key = Some val.
Proof.
  intros H Hsec Hkey Hpost.
  apply readAdat_Ok in H as (st & a & d & Hloop & _ & _ & _ & -> & _).
  apply loop_app_Ok in Hloop as (st0 & Hpre & Hrest).
  simpl in Hrest. apply bind_Ok in Hrest as (st1 & Hbody & Hrest).
  pose proof (loop_section _ _ _ _ _ Hpre) as Hcur. simpl in Hcur.
  rewrite Hsec in Hcur.
  rewrite (loop_Metadata_other _ _ _ _ _ _ Hrest Hpost).
  rewrite (body_Metadata _ _ _ _ _ Hbody), Hcur. unfold is_title. simpl.
  rewrite (bool_decide_eq_false_2 (key ∈ sectionTitles)) by done.
  simpl. apply lookup_insert_eq.
Qed.

Lemma Metadata_keeps_last_value_witness :
  exists res,
    readAdat true true
      (["^HEADER"] :: ["!Title"; "first"] :: drop 1 Samples.minimal) = Ok res
    /\ Metadata res !! "!Title" = Some "demo".
Proof.
  eexists.
  assert (readAdat true true
            (["^HEADER"] :: ["!Title"; "first"] :: drop 1 Samples.minimal)
          = Ok _) as H by (vm_compute; reflexivity).
  split; [exact H|].
  apply (Metadata_keeps_last_value true true
           [["^HEADER"]; ["!Title"; "first"]; ["^HEADER"]] "!Title" "demo" []
           (drop 3 Samples.minimal) _ H).
  - reflexivity.
  - by vm_compute.
  - repeat constructor; by vm_compute.
Defined.

(** On success every metadata entry comes from a key/value line of the
    [^HEADER] section: nothing else writes to the metadata. *)
Theorem Metadata_only_from_HEADER kp ks rows res key val :
  readAdat kp ks rows = Ok res ->
  Metadata res !! key = Some val ->
  exists pre fields post,
    rows = pre ++ (key :: val :: fields) :: post
    /\ section_from None pre = Some "^HEADER".
Proof.
  intros H.
  apply readAdat_Ok in H as (st & a & d & Hloop & _ & _ & _ & -> & _).
  clear a d res. revert st Hloop.
  induction rows as [|r rows IH] using rev_ind; intros st Hloop Hk.
  { injection Hloop as <-. simpl in Hk. by rewrite lookup_empty in Hk. }
  apply loop_app_Ok in Hloop as (st0 & Hpre & Hrest).
  simpl in Hrest. apply bind_Ok in Hrest as (st1 & Hbody & [= ->]).
  pose proof (loop_section _ _ _ _ _ Hpre) as Hcur. simpl in Hcur.
  rewrite (body_Metadata _ _ _ _ _ Hbody) in Hk.
  assert (Metadata (vals st0) !! key = Some val ->
          exists pre fields post,
            rows ++ [r] = pre ++ (key :: val :: fields) :: post
            /\ section_from None pre = Some "^HEADER") as Hold.
  { intros Hk0. destruct (IH st0 Hpre Hk0) as (pre & fields & post & -> & ?).
    exists pre, fields, (post ++ [r]). by rewrite <- app_assoc. }
  destruct r as [|k [|v rest]]; [by apply Hold..|].
  destruct (bool_decide (curSection st0 = Some "^HEADER")) eqn:Hh;
    [|by apply Hold].
  destruct (negb (is_title (k :: v :: rest))); [|by apply Hold].
  simpl in Hk. apply bool_decide_eq_true_1 in Hh.
  destruct (decide (k = key)) as [->|Hne].
  - rewrite lookup_insert_eq in Hk. injection Hk as ->.
    exists rows, rest, []. split; [done | congruence].
  - rewrite lookup_insert_ne in Hk by done. by apply Hold.
Qed.

Lemma Metadata_only_from_HEADER_witness :
  exists pre fields post,
    Samples.minimal = pre ++ ("!Title" :: "demo" :: fields) :: post
    /\ section_from None pre = Some "^HEADER".
Proof.
  assert (exists res, readAdat true true Samples.minimal = Ok res
                      /\ Metadata res !! "!Title" = Some "demo")
    as (res & H & Hk).
  { eexists. split; [vm_compute; reflexivity | reflexivity]. }
  exact (Metadata_only_from_HEADER true true Samples.minimal res
           "!Title" "demo" H Hk).
Defined.

(** What every file that parses must contain: a "!Name" line in
    [^ROW_DATA] whose fields (those of the last such line are returned)
    include both "SampleType" and "RowCheck", and a table with a row
    labelled "SeqId".  The sequence-annotation names returned are the
    labels of the column-annotation rows, in file order, and they label
    the rows of the sequence table. *)
Theorem parsed_file_has_schema_and_SeqId kp ks rows res :
  readAdat kp ks rows = Ok res ->
  exists names s,
    schema_of rows = Some names
    /\ SampleAnnotNames res = Some names
    /\ "SampleType" ∈ names
    /\ "RowCheck" ∈ names
    /\ SequenceAnnotNames res
       = Some (map fst (col_rows names (table_section rows)))
    /\ "SeqId" ∈ map fst (col_rows names (table_section rows))
    /\ SequenceData res = Some s
    /\ df_index s = map VStr (map fst (col_rows names (table_section rows))).
Proof.
  intros H. pose proof H as H'.
  apply readAdat_Ok in H' as (st' & _ & _ & Hloop' & _ & _ & _ & _ & _ & Hsa & _).
  apply readAdat_Ok_tables in H
    as (st & a & d & names & ids & Hloop & _ & _ & Hsc & Hn & Hs & _ & _ & _
        & (i & Hi) & _ & Hsdf & _).
  assert (st' = st) as -> by congruence.
  destruct (loop_init _ _ _ _ Hloop) as (Hnames & Hinv & Htab).
  destruct (Htab names Hsc) as (Hidx & _).
  rewrite Hsc in Hnames. destruct (Hinv names Hnames) as (p & q & Hp & _ & Hq & _).
  apply find_index_Some in Hp as [Hp _]. apply find_index_Some in Hq as [Hq _].
  exists names, (a_sequenceData a). rewrite <- Hidx.
  repeat split; try done.
  - by eapply list_elem_of_lookup_2.
  - by eapply list_elem_of_lookup_2.
  - by eapply list_elem_of_lookup_2.
  - by rewrite Hsdf.
Qed.

Lemma parsed_file_has_schema_and_SeqId_witness :
  exists res names s,
    readAdat true true Samples.minimal = Ok res
    /\ schema_of Samples.minimal = Some names
    /\ SampleAnnotNames res = Some names
    /\ "SampleType" ∈ names
    /\ "RowCheck" ∈ names
    /\ SequenceAnnotNames res
       = Some (map fst (col_rows names (table_section Samples.minimal)))
    /\ "SeqId" ∈ map fst (col_rows names (table_section Samples.minimal))
    /\ SequenceData res = Some s
    /\ df_index s
       = map VStr (map fst (col_rows names (table_section Samples.minimal))).
Proof.
  eexists.
  assert (readAdat true true Samples.minimal = Ok _) as H
    by (vm_compute; reflexivity).
  destruct (parsed_file_has_schema_and_SeqId true true Samples.minimal _ H)
    as (names & s & Hrest).
  exists names, s. split; [exact H | exact Hrest].
Defined.

(** ** Further properties: the rows of the sample table *)

(** A run of sample rows appends the retained ones, in order, each cut
    at the empty slot and filtered by the mask in force, which it does
    not change. *)
Lemma loop_sample_rows kp ks tbl : forall st st' names,
  curSection st = Some "^TABLE_BEGIN" ->
  SampleAnnotNames (vals st) = Some names ->
  schema_inv st ->
  Forall (fun row => is_sample_row names row = true) tbl ->
  loop kp ks st tbl = Ok st' ->
  sampleAndIntensityData st'
  = sampleAndIntensityData st
    ++ map (fun row => take (length names) row
                       ++ kept_readouts kp (colPassFlag st)
                            (drop (length names + 1) row))
         (List.filter (retained kp ks names) tbl).
Proof.
  induction tbl as [|row tbl IH]; intros st st' names Hsec Hn Hinv Hall H.
  { injection H as <-. simpl. by rewrite app_nil_r. }
  apply Forall_cons in Hall as [Hrow Hall].
  simpl in H. apply bind_Ok in H as (st1 & Hbody & H).
  unfold body in Hbody. rewrite Hsec in Hbody.
  rewrite bool_decide_eq_true_2 in Hbody by done.
  apply bool_decide_eq_true_1 in Hrow.
  rewrite (table_row_sample _ _ _ _ _ Hn Hinv Hrow) in Hbody.
  simpl. unfold retained at 1.
  destruct (is_stray_header names row); simpl.
  { injection Hbody as <-. by apply (IH (next_line st)). }
  destruct (passes_filters kp ks names row); injection Hbody as <-; simpl.
  - match type of H with
    | loop _ _ ?s _ = _ => rewrite (IH s st' names Hsec Hn Hinv Hall H)
    end.
    simpl. by rewrite <- app_assoc.
  - by apply IH.
Qed.

(** Without keepOnlyPasses no run of table rows filters a readout. *)
Lemma loop_table_unfiltered ks tbl : forall st st' names,
  curSection st = Some "^TABLE_BEGIN" ->
  SampleAnnotNames (vals st) = Some names ->
  schema_inv st ->
  loop false ks st tbl = Ok st' ->
  sampleAndIntensityData st'
  = sampleAndIntensityData st
    ++ map (fun row => take (length names) row ++ drop (length names + 1) row)
         (List.filter (retained false ks names) (sample_rows names tbl)).
Proof.
  induction tbl as [|row tbl IH]; intros st st' names Hsec Hn Hinv H.
  { injection H as <-. simpl. by rewrite app_nil_r. }
  simpl in H. apply bind_Ok in H as (st1 & Hbody & H).
  unfold body in Hbody. rewrite Hsec in Hbody.
  rewrite bool_decide_eq_true_2 in Hbody by done.
  destruct (row !! length names) as [label|] eqn:Hl;
    [|by rewrite (table_row_short _ _ _ _ _ Hn Hl) in Hbody].
  destruct (decide (label = "")) as [->|Hne].
  - destruct (col_row_sample _ _ Hl) as [_ Hs].
    rewrite (table_row_sample _ _ _ _ _ Hn Hinv Hl) in Hbody.
    simpl. rewrite Hs. simpl. unfold retained at 1.
    destruct (is_stray_header names row); simpl.
    { injection Hbody as <-. by apply (IH (next_line st)). }
    destruct (passes_filters false ks names row); injection Hbody as <-; simpl.
    + match type of H with
      | loop _ _ ?s _ = _ => rewrite (IH s st' names Hsec Hn Hinv H)
      end.
      simpl. by rewrite <- app_assoc.
    + by apply IH.
  - destruct (col_row_column _ _ _ Hl Hne) as [_ Hs].
    rewrite (table_row_column _ _ _ _ _ _ Hn Hl Hne) in Hbody.
    injection Hbody as <-. simpl. rewrite Hs.
    match type of H with
    | loop _ _ ?s _ = _ => by rewrite (IH s st' names Hsec Hn Hinv H)
    end.
Qed.

(** The state at the table marker, for a file that has a schema. *)
Lemma loop_enters_table kp ks rows st names :
  loop kp ks init rows = Ok st ->
  schema_of rows = Some names ->
  table_section rows <> [] ->
  exists st1,
    loop kp ks st1 (table_section rows) = Ok st
    /\ curSection st1 = Some "^TABLE_BEGIN"
    /\ SampleAnnotNames (vals st1) = Some names
    /\ schema_inv st1
    /\ sampleAndIntensityData st1 = []
    /\ sequenceData st1 = []
    /\ sequenceDataIndex st1 = []
    /\ colPassFlag st1 = None.
Proof.
  intros H Hsc Hne.
  apply loop_header in H
    as (st1 & H & Hinv & Hn & Hs & Hd & Hi & Hf & Hcase);
    [|done|apply schema_inv_init].
  simpl in Hn, Hs, Hd, Hi, Hf.
  change (schema_from None None rows) with (schema_of rows) in Hn.
  destruct Hcase as [?|Hsec]; [done|].
  exists st1. rewrite Hn, Hsc. done.
Qed.

(** With keepOnlyPasses false the accumulated sample rows are, in file
    order, the retained sample rows of the table, each with its
    annotations followed by all its readouts: the ColCheck and RowCheck
    values play no part. *)
Theorem unfiltered_sample_rows ks rows st names :
  loop false ks init rows = Ok st ->
  schema_of rows = Some names ->
  sampleAndIntensityData st
  = map (fun row => take (length names) row ++ drop (length names + 1) row)
      (List.filter
         (fun row => negb (is_stray_header names row)
                     && (negb ks
                         || bool_decide (field "SampleType" names row
                                         = Some "Sample")))
         (sample_rows names (table_section rows))).
Proof.
  intros H Hsc.
  assert (forall row, retained false ks names row
                      = negb (is_stray_header names row)
                        && (negb ks
                            || bool_decide (field "SampleType" names row
                                            = Some "Sample"))) as Hret.
  { intros row. unfold retained, passes_filters. simpl.
    by rewrite andb_true_r. }
  rewrite <- (List.filter_ext _ _ Hret).
  destruct (table_section rows) as [|r tbl] eqn:Htbl.
  { destruct (loop_init _ _ _ _ H) as (_ & _ & Htab).
    destruct (Htab names Hsc) as (_ & _ & _ & Hlen).
    rewrite Htbl in Hlen. simpl in Hlen. by apply nil_length_inv. }
  destruct (loop_enters_table _ _ _ _ _ H Hsc)
    as (st1 & Hloop & Hsec & Hn & Hinv & Hs & _); [by rewrite Htbl|].
  rewrite Htbl in Hloop.
  rewrite (loop_table_unfiltered _ _ _ _ _ Hsec Hn Hinv Hloop), Hs. done.
Qed.

Lemma unfiltered_sample_rows_witness :
  exists st,
    loop false true init Samples.late_ColCheck = Ok st
    /\ sampleAndIntensityData st
       = [ ["s1"; "Sample"; "PASS"; "1.5"; "2.5"];
           ["s2"; "Sample"; "PASS"; "3.5"; "4.5"] ].
Proof.
  eexists.
  assert (loop false true init Samples.late_ColCheck = Ok _) as H
    by (vm_compute; reflexivity).
  split; [exact H|].
  rewrite (unfiltered_sample_rows true Samples.late_ColCheck _
             ["SampleId"; "SampleType"; "RowCheck"] H eq_refl).
  reflexivity.
Defined.

(** For a table laid out as ADAT files are, all column-annotation rows
    first and the sample rows after them, the accumulated sample rows
    are, in file order, the retained sample rows, each with its
    annotations followed by its readouts filtered by the mask of the
    last ColCheck row (when keepOnlyPasses is set and that row carries a
    value). *)
Theorem sample_rows_of_ordered_table kp ks rows st names cols samples :
  loop kp ks init rows = Ok st ->
  schema_of rows = Some names ->
  table_section rows = cols ++ samples ->
  Forall (fun row => is_sample_row names row = false) cols ->
  Forall (fun row => is_sample_row names row = true) samples ->
  sampleAndIntensityData st
  = map (fun row =>
           take (length names) row
           ++ (if kp
               then under_mask (last_labelled "ColCheck" (col_rows names cols))
                      (drop (length names + 1) row)
               else drop (length names + 1) row))
      (List.filter (retained kp ks names) samples).
Proof.
  intros H Hsc Htbl Hcols Hsamples.
  destruct (decide (table_section rows = [])) as [Hnil|Hne].
  { destruct (loop_init _ _ _ _ H) as (_ & _ & Htab).
    destruct (Htab names Hsc) as (_ & _ & _ & Hlen).
    rewrite Hnil in Hlen, Htbl. simpl in Hlen.
    symmetry in Htbl. apply app_eq_nil in Htbl as [_ ->].
    by apply nil_length_inv. }
  destruct (loop_enters_table _ _ _ _ _ H Hsc Hne)
    as (st1 & Hloop & Hsec & Hn & Hinv & Hs & _ & _ & Hf).
  rewrite Htbl in Hloop.
  apply loop_app_Ok in Hloop as (st2 & Hc & Hsam).
  destruct (loop_table _ _ _ _ _ _ Hsec Hn Hinv Hc)
    as (Hv & Hsec2 & Hinv2 & _ & _ & Hflag & extra & Hdata & Hlen).
  assert (sample_rows names cols = []) as Hnone.
  { unfold sample_rows. clear -Hcols.
    induction Hcols as [|r cols Hr _ IH]; simpl; [done|]. by rewrite Hr. }
  rewrite Hnone in Hlen. simpl in Hlen. apply nil_length_inv in Hlen as ->.
  rewrite Hs in Hdata. simpl in Hdata.
  assert (SampleAnnotNames (vals st2) = Some names) as Hn2 by congruence.
  rewrite (loop_sample_rows _ _ _ _ _ _ Hsec2 Hn2 Hinv2 Hsamples Hsam), Hdata.
  simpl. apply map_ext. intros row. f_equal.
  rewrite Hflag, Hf. unfold flag_after, kept_readouts.
  destruct kp; [|done]. simpl.
  by destruct (last_labelled "ColCheck" _) as [[|v c]|].
Qed.

Lemma sample_rows_of_ordered_table_witness :
  exists st,
    loop true true init Samples.minimal = Ok st
    /\ sampleAndIntensityData st = [ ["s1"; "Sample"; "PASS"; "1.5"] ].
Proof.
  eexists.
  assert (loop true true init Samples.minimal = Ok _) as H
    by (vm_compute; reflexivity).
  split; [exact H|].
  rewrite (sample_rows_of_ordered_table true true Samples.minimal _
             ["SampleId"; "SampleType"; "RowCheck"]
             (take 2 (drop 6 Samples.minimal))
             (drop 8 Samples.minimal) H eq_refl eq_refl).
  - reflexivity.
  - repeat constructor.
  - repeat constructor.
Defined.

(** ** Further properties: the cells of the two tables *)

Lemma cells_past_end r : forall n k,
  length r <= k -> map (cell_of r) (seq k n) = replicate n VNone.
Proof.
  induction n as [|n IH]; intros k Hk; simpl; [done|].
  unfold cell_of at 1. rewrite lookup_ge_None_2 by done.
  f_equal. apply IH. lia.
Qed.

Lemma cells_padded r w :
  length r <= w ->
  map (cell_of r) (seq 0 w)
  = map VStr r ++ replicate (w - length r) VNone.
Proof.
  intros Hle.
  replace w with (length r + (w - length r)) at 1 by lia.
  rewrite seq_app, map_app. simpl.
  rewrite cells_of_row by lia. rewrite drop_0.
  by rewrite cells_past_end.
Qed.

(** The column-annotation rows as they stand after the pass. *)
Lemma filtered_rows kp ks rows st names :
  loop kp ks init rows = Ok st ->
  schema_of rows = Some names ->
  filtered_sequenceData kp st
  = map (fun v =>
           if kp
           then under_mask
                  (last_labelled "ColCheck"
                     (col_rows names (table_section rows))) v
           else v)
      (map snd (col_rows names (table_section rows))).
Proof.
  intros Hloop Hsc.
  destruct (loop_init _ _ _ _ Hloop) as (_ & _ & Htab).
  destruct (Htab names Hsc) as (_ & Hdat & _ & _).
  pose proof (final_mask _ _ _ _ _ Hloop Hsc) as Hflag.
  unfold filtered_sequenceData. rewrite Hflag, Hdat.
  destruct kp; simpl; [|by rewrite map_id].
  destruct (last_labelled "ColCheck" _) as [[|v c]|]; simpl;
    [by rewrite map_id | done | by rewrite map_id].
Qed.

(** On success the sequence table has one row per column-annotation row
    of the file, in file order and under its label; the row holds the
    values of the file row (those at mask-true positions when
    keepOnlyPasses applies), padded with missing cells up to the number
    of protein columns, which no row exceeds; every column has type
    object. *)
Theorem sequence_table_rows kp ks rows res :
  readAdat kp ks rows = Ok res ->
  exists names s,
    schema_of rows = Some names
    /\ SequenceData res = Some s
    /\ nrows s = length (col_rows names (table_section rows))
    /\ df_dtypes s = replicate (ncols s) object
    /\ forall i label v,
         col_rows names (table_section rows) !! i = Some (label, v) ->
         let v' := if kp
                   then under_mask
                          (last_labelled "ColCheck"
                             (col_rows names (table_section rows))) v
                   else v in
         df_index s !! i = Some (VStr label)
         /\ length v' <= ncols s
         /\ row_at s i = map VStr v' ++ replicate (ncols s - length v') VNone.
Proof.
  intros H.
  apply readAdat_Ok_tables in H
    as (st & a & d & names & ids & Hloop & _ & _ & Hsc & _ & Hs & _ & Hids
        & Hw & _ & _ & Hsdf & _).
  destruct (loop_init _ _ _ _ Hloop) as (_ & _ & Htab).
  destruct (Htab names Hsc) as (Hidx & _).
  pose proof (filtered_rows _ _ _ _ _ Hloop Hsc) as Hfil.
  exists names, (a_sequenceData a). rewrite Hsdf. unfold nrows, ncols. simpl.
  rewrite !length_map, Hids, length_map, Hidx, length_map.
  repeat split; try done; try congruence.
  - change (map ?f ?l) with (f <$> l).
    by rewrite !list_lookup_fmap, H.
  - rewrite Hw. apply width_ge. rewrite Hfil.
    apply list_elem_of_fmap. eexists. split; [reflexivity|].
    apply list_elem_of_fmap. exists (label, v). split; [done|].
    by eapply list_elem_of_lookup_2.
  - rewrite row_at_columns_of_rows.
    assert (filtered_sequenceData kp st !! i
            = Some (if kp
                    then under_mask
                           (last_labelled "ColCheck"
                              (col_rows names (table_section rows))) v
                    else v)) as Hi.
    { rewrite Hfil. change (map ?f ?l) with (f <$> l).
      by rewrite !list_lookup_fmap, H. }
    rewrite Hi. apply cells_padded.
    rewrite Hw. apply width_ge. by eapply list_elem_of_lookup_2.
Qed.

Lemma sequence_table_rows_witness :
  exists res names s,
    readAdat true true Samples.minimal = Ok res
    /\ schema_of Samples.minimal = Some names
    /\ SequenceData res = Some s
    /\ nrows s = length (col_rows names (table_section Samples.minimal))
    /\ df_dtypes s = replicate (ncols s) object
    /\ forall i label v,
         col_rows names (table_section Samples.minimal) !! i
         = Some (label, v) ->
         let v' := under_mask
                     (last_labelled "ColCheck"
                        (col_rows names (table_section Samples.minimal))) v in
         df_index s !! i = Some (VStr label)
         /\ length v' <= ncols s
         /\ row_at s i = map VStr v' ++ replicate (ncols s - length v') VNone.
Proof.
  eexists.
  assert (readAdat true true Samples.minimal = Ok _) as H
    by (vm_compute; reflexivity).
  destruct (sequence_table_rows true true Samples.minimal _ H)
    as (names & s & Hrest).
  exists names, s. split; [exact H | exact Hrest].
Defined.

(** Every accumulated sample row starts with a full set of annotations. *)
Lemma loop_table_rows_wide kp ks tbl : forall st st' names,
  curSection st = Some "^TABLE_BEGIN" ->
  SampleAnnotNames (vals st) = Some names ->
  schema_inv st ->
  Forall (fun r => length names <= length r) (sampleAndIntensityData st) ->
  loop kp ks st tbl = Ok st' ->
  Forall (fun r => length names <= length r) (sampleAndIntensityData st').
Proof.
  induction tbl as [|row tbl IH]; intros st st' names Hsec Hn Hinv Hall H.
  { by injection H as <-. }
  simpl in H. apply bind_Ok in H as (st1 & Hbody & H).
  unfold body in Hbody. rewrite Hsec in Hbody.
  rewrite bool_decide_eq_true_2 in Hbody by done.
  destruct (row !! length names) as [label|] eqn:Hl;
    [|by rewrite (table_row_short _ _ _ _ _ Hn Hl) in Hbody].
  destruct (decide (label = "")) as [->|Hne].
  - rewrite (table_row_sample _ _ _ _ _ Hn Hinv Hl) in Hbody.
    destruct (is_stray_header names row).
    { injection Hbody as <-. by apply (IH (next_line st) st' names). }
    destruct (passes_filters kp ks names row); injection Hbody as <-.
    + match type of H with
      | loop _ _ ?s _ = _ => apply (IH s st' names Hsec Hn Hinv); [|done]
      end.
      simpl. apply Forall_app. split; [done|]. constructor; [|done].
      rewrite length_app, length_take.
      apply lookup_lt_Some in Hl. lia.
    + by apply (IH st st' names).
  - rewrite (table_row_column _ _ _ _ _ _ Hn Hl Hne) in Hbody.
    injection Hbody as <-.
    match type of H with
    | loop _ _ ?s _ = _ => apply (IH s st' names); try done
    end;
      by destruct (kp && bool_decide (label = "ColCheck")).
Qed.

Lemma loop_rows_wide kp ks rows st names :
  loop kp ks init rows = Ok st ->
  schema_of rows = Some names ->
  Forall (fun r => length names <= length r) (sampleAndIntensityData st).
Proof.
  intros H Hsc.
  destruct (decide (table_section rows = [])) as [Hnil|Hne].
  { destruct (loop_init _ _ _ _ H) as (_ & _ & Htab).
    destruct (Htab names Hsc) as (_ & _ & _ & Hlen).
    rewrite Hnil in Hlen. simpl in Hlen.
    apply nil_length_inv in Hlen as ->. constructor. }
  destruct (loop_enters_table _ _ _ _ _ H Hsc Hne)
    as (st1 & Hloop & Hsec & Hn & Hinv & Hs & _).
  apply (loop_table_rows_wide kp ks (table_section rows) st1 st names
           Hsec Hn Hinv); [|done].
  rewrite Hs. constructor.
Qed.

(** On success the sample table has one row per accumulated sample row,
    none of which has more cells than the table has columns, and a
    sample-annotation column whose name is not one of the protein
    identifiers keeps type object and holds, row by row, the annotation
    text as read. *)
Theorem annotation_columns_are_text kp ks rows res :
  readAdat kp ks rows = Ok res ->
  exists st names s d,
    loop kp ks init rows = Ok st
    /\ SampleAnnotNames res = Some names
    /\ SequenceData res = Some s
    /\ SampleAndIntensityData res = Some d
    /\ nrows d = length (sampleAndIntensityData st)
    /\ Forall (fun r => length names <= length r <= ncols d)
         (sampleAndIntensityData st)
    /\ forall j lab,
         names !! j = Some lab ->
         VStr lab ∉ df_columns s ->
         df_columns d !! j = Some (VStr lab)
         /\ df_dtypes d !! j = Some object
         /\ exists col,
              df_data d !! j = Some col
              /\ Forall2 (fun r v => exists x, r !! j = Some x /\ v = VStr x)
                   (sampleAndIntensityData st) col.
Proof.
  intros H.
  apply readAdat_Ok_tables in H
    as (st & a & d & names & ids & Hloop & _ & Hd & Hsc & Hn & Hs & Hdd & Hids
        & _ & _ & _ & Hsdf & Hddf & Hwd & Hidx & Hcols).
  pose proof (loop_rows_wide _ _ _ _ _ Hloop Hsc) as Hwide.
  exists st, names, (a_sequenceData a), d.
  unfold nrows, ncols. rewrite Hidx, RangeIndex_length, Hcols, length_map.
  repeat split; try done.
  - apply Forall_forall. intros r Hr. split.
    + by apply (proj1 (Forall_forall _ _) Hwide).
    + destruct Hwd as [Hnil|Hw];
        [rewrite Hnil in Hr; by apply elem_of_nil in Hr|].
      rewrite length_app, Hids, length_map, <- Hw. by apply width_ge.
  - change (map VStr ?l) with (VStr <$> l).
    by rewrite list_lookup_fmap, (lookup_app_l_Some _ _ _ _ H).
  - destruct (astype_Ok _ _ _ Hd) as (_ & _ & -> & _).
    rewrite Hddf. simpl. change (map ?f ?l) with (f <$> l).
    rewrite list_lookup_fmap, lookup_zip_with, list_lookup_fmap.
    rewrite (lookup_app_l_Some _ _ _ _ H). simpl.
    rewrite lookup_replicate_2.
    2:{ rewrite length_app. apply lookup_lt_Some in H. lia. }
    simpl. unfold astype_dtype. simpl.
    rewrite bool_decide_eq_false_2; [done|].
    rewrite Hsdf in H0. exact H0.
  - destruct (astype_Ok _ _ _ Hd) as (_ & _ & _ & Hall).
    rewrite Hddf in Hall. simpl in Hall.
    pose proof (sample_table_column _ (sampleAndIntensityData st) _ _
                  (lookup_app_l_Some _ (a_seqIds a) _ _ H)) as Hcol.
    destruct (Forall2_lookup_l _ _ _ _ _ Hall Hcol) as (col & Hcol' & Hconv).
    exists col. split; [done|].
    unfold astype_column in Hconv. simpl in Hconv.
    rewrite bool_decide_eq_false_2 in Hconv
      by (rewrite Hsdf in H0; exact H0).
    injection Hconv as <-.
    apply Forall2_fmap_r, Forall_Forall2_diag.
    apply Forall_forall. intros r Hr.
    assert (j < length r) as Hlt.
    { apply lookup_lt_Some in H.
      assert (length names <= length r)
        by (by apply (proj1 (Forall_forall _ _) Hwide)).
      lia. }
    destruct (lookup_lt_is_Some_2 _ _ Hlt) as [x Hx].
    exists x. split; [done|]. unfold cell_of. by rewrite Hx.
Qed.

Lemma annotation_columns_are_text_witness :
  exists res st names s d,
    readAdat true true Samples.minimal = Ok res
    /\ loop true true init Samples.minimal = Ok st
    /\ SampleAnnotNames res = Some names
    /\ SequenceData res = Some s
    /\ SampleAndIntensityData res = Some d
    /\ nrows d = length (sampleAndIntensityData st)
    /\ Forall (fun r => length names <= length r <= ncols d)
         (sampleAndIntensityData st)
    /\ forall j lab,
         names !! j = Some lab ->
         VStr lab ∉ df_columns s ->
         df_columns d !! j = Some (VStr lab)
         /\ df_dtypes d !! j = Some object
         /\ exists col,
              df_data d !! j = Some col
              /\ Forall2 (fun r v => exists x, r !! j = Some x /\ v = VStr x)
                   (sampleAndIntensityData st) col.
Proof.
  eexists.
  assert (readAdat true true Samples.minimal = Ok _) as H
    by (vm_compute; reflexivity).
  destruct (annotation_columns_are_text true true Samples.minimal _ H)
    as (st & names & s & d & Hrest).
  exists st, names, s, d. split; [exact H | exact Hrest].
Defined.

(** ** Further properties: what the layout of the table can break *)

Lemma two_SeqId_rows_width data index vals p seqIds i i' :
  loc_iter (DataFrame_index data index) "SeqId" = Ok vals ->
  mapM (str_add p) vals = Ok seqIds ->
  i <> i' ->
  index !! i = Some "SeqId" -> index !! i' = Some "SeqId" ->
  width data = 0.
Proof.
  intros Hloc Hmap Hne Hi Hi'. unfold loc_iter in Hloc.
  assert (forall k, index !! k = Some "SeqId" ->
            k ∈ positions_from 0 (VStr "SeqId")
                  (df_index (DataFrame_index data index))) as Hpos.
  { intros k Hk. apply positions_from_spec. exists k. split; [done|].
    simpl. by rewrite list_lookup_fmap, Hk. }
  apply Hpos in Hi, Hi'.
  destruct (positions_from 0 (VStr "SeqId")
              (df_index (DataFrame_index data index)))
    as [|a [|b rest]]; [done| |].
  - apply list_elem_of_singleton in Hi, Hi'. congruence.
  - injection Hloc as <-. simpl in Hmap.
    by apply mapM_str_add_RangeIndex in Hmap as [? _].
Qed.

(** A file with two rows labelled "SeqId" parses only when the table has
    no protein at all: the sequence table then has no column and the
    sample table only the annotation columns.  (With a protein the labels
    cannot be formed and the parse fails.) *)
Theorem two_SeqId_rows_leave_no_protein kp ks rows res names i i' v v' :
  readAdat kp ks rows = Ok res ->
  schema_of rows = Some names ->
  i <> i' ->
  col_rows names (table_section rows) !! i = Some ("SeqId", v) ->
  col_rows names (table_section rows) !! i' = Some ("SeqId", v') ->
  exists s d,
    SequenceData res = Some s /\ ncols s = 0
    /\ SampleAndIntensityData res = Some d /\ ncols d = length names.
Proof.
  intros H Hsc Hne Hi Hi'.
  apply readAdat_Ok_tables in H
    as (st & a & d & names' & ids & Hloop & Ha & _ & Hsc' & _ & Hs & Hd & Hids
        & Hw & _ & _ & Hsdf & _ & _ & _ & Hcols).
  assert (names' = names) as -> by congruence.
  destruct (loop_init _ _ _ _ Hloop) as (_ & _ & Htab).
  destruct (Htab names Hsc) as (Hidx & _).
  assert (forall k x, col_rows names (table_section rows) !! k
                      = Some ("SeqId", x) ->
                      sequenceDataIndex st !! k = Some "SeqId") as Hlab.
  { intros k x Hk. rewrite Hidx. change (map ?f ?l) with (f <$> l).
    by rewrite list_lookup_fmap, Hk. }
  assert (width (filtered_sequenceData kp st) = 0) as Hzero.
  { unfold assemble in Ha.
    apply bind_Ok in Ha as (? & _ & Ha).
    apply bind_Ok in Ha as (vals & Hloc & Ha).
    apply bind_Ok in Ha as (seqIds & Hmap & _).
    by apply (two_SeqId_rows_width _ _ _ _ _ i i' Hloc Hmap Hne
                (Hlab _ _ Hi) (Hlab _ _ Hi')). }
  exists (a_sequenceData a), d. rewrite Hsdf. unfold ncols. simpl.
  rewrite Hcols, !length_map, length_app, Hids, length_map, Hw, Hzero.
  repeat split; try done; try congruence.
Qed.

Lemma two_SeqId_rows_leave_no_protein_witness :
  exists res s d,
    readAdat true true MoreSamples.two_SeqId_rows = Ok res
    /\ SequenceData res = Some s /\ ncols s = 0
    /\ SampleAndIntensityData res = Some d /\ ncols d = 3.
Proof.
  eexists.
  assert (readAdat true true MoreSamples.two_SeqId_rows = Ok _) as H
    by (vm_compute; reflexivity).
  destruct (two_SeqId_rows_leave_no_protein true true
              MoreSamples.two_SeqId_rows _
              ["SampleId"; "SampleType"; "RowCheck"] 0 1 [] []
              H eq_refl ltac:(lia) eq_refl eq_refl) as (s & d & Hrest).
  exists s, d. split; [exact H | exact Hrest].
Defined.

(** The entry a retained sample row leaves in the accumulated rows. *)
Lemma sample_entry kp ks pre row post st names :
  loop kp ks init (pre ++ row :: post) = Ok st ->
  schema_of (pre ++ row :: post) = Some names ->
  section_from None pre = Some "^TABLE_BEGIN" ->
  is_sample_row names row = true ->
  retained kp ks names row = true ->
  take (length names) row
  ++ kept_readouts kp
       (flag_after kp None (col_rows names (table_section pre)))
       (drop (length names + 1) row)
  ∈ sampleAndIntensityData st.
Proof.
  intros Hloop Hsc Hsec Hsample Hret.
  destruct (loop_init _ _ _ _ Hloop) as (Hn & _ & _).
  apply loop_app_Ok in Hloop as (st0 & Hpre & Hrest).
  pose proof (loop_section _ _ _ _ _ Hpre) as Hcur. simpl in Hcur.
  rewrite Hsec in Hcur.
  destruct (loop_init _ _ _ _ Hpre) as (Hn0 & Hinv0 & Htab0).
  pose proof Hrest as Hrest'.
  simpl in Hrest. apply bind_Ok in Hrest as (st1 & Hbody & Hpost).
  unfold body in Hbody. rewrite Hcur in Hbody.
  rewrite bool_decide_eq_true_2 in Hbody by done.
  destruct (schema_of pre) as [names0|] eqn:Hsc0;
    [|by rewrite (table_row_no_schema _ _ _ _ Hn0) in Hbody].
  destruct (loop_table _ _ _ _ _ _ Hcur Hn0 Hinv0 Hrest') as (Hv & _).
  assert (names0 = names) as -> by congruence.
  destruct (Htab0 names eq_refl) as (_ & _ & Hflag0 & _).
  apply bool_decide_eq_true_1 in Hsample.
  rewrite (table_row_sample _ _ _ _ _ Hn0 Hinv0 Hsample) in Hbody.
  unfold retained in Hret. apply andb_true_iff in Hret as [Hs Hp].
  apply negb_true_iff in Hs. rewrite Hs, Hp in Hbody.
  injection Hbody as <-.
  match type of Hpost with
  | loop _ _ ?s _ = _ =>
      destruct (loop_table kp ks post s st names Hcur Hn0 Hinv0 Hpost)
        as (_ & _ & _ & _ & _ & _ & extra & Hsamp & _)
  end.
  simpl in Hsamp. rewrite Hsamp, Hflag0.
  apply elem_of_app. left. apply elem_of_app. right. by left.
Qed.

(** The number of protein columns under a mask. *)
Lemma width_under_mask ks rows st names c :
  loop true ks init rows = Ok st ->
  schema_of rows = Some names ->
  last_labelled "ColCheck" (col_rows names (table_section rows)) = Some c ->
  c <> [] ->
  width (filtered_sequenceData true st) = count_PASS c.
Proof.
  intros Hloop Hsc Hlast Hne.
  rewrite (filtered_rows _ _ _ _ _ Hloop Hsc), Hlast, count_PASS_mask.
  destruct c as [|v c]; [done|]. unfold under_mask.
  apply Nat.le_antisymm.
  - apply width_bound. intros r Hr.
    apply list_elem_of_fmap in Hr as (r' & -> & _).
    apply zip_filter_length_le.
  - rewrite <- (zip_filter_map_length is_PASS (v :: c)).
    apply width_ge. apply list_elem_of_fmap. exists (v :: c).
    split; [done|].
    apply last_labelled_elem in Hlast.
    apply list_elem_of_fmap. exists ("ColCheck", v :: c). done.
Qed.

(** With keepOnlyPasses, a retained sample row that comes before every
    ColCheck row keeps all its readouts; when it has more of them than
    the last ColCheck row has "PASS" values, the sample rows no longer
    fit the protein columns and the file does not parse. *)
Theorem sample_row_before_ColCheck_can_break_parse ks pre row post names c :
  schema_of (pre ++ row :: post) = Some names ->
  section_from None pre = Some "^TABLE_BEGIN" ->
  is_sample_row names row = true ->
  retained true ks names row = true ->
  last_labelled "ColCheck" (col_rows names (table_section pre)) = None ->
  last_labelled "ColCheck"
    (col_rows names (table_section (pre ++ row :: post))) = Some c ->
  c <> [] ->
  count_PASS c < length (drop (length names + 1) row) ->
  exists e, readAdat true ks (pre ++ row :: post) = Raise e.
Proof.
  intros Hsc Hsec Hsample Hret Hbefore Hlast Hc Hmore.
  destruct (readAdat true ks (pre ++ row :: post)) as [res|e] eqn:H;
    [exfalso | by exists e].
  apply readAdat_Ok_tables in H
    as (st & a & d & names' & ids & Hloop & _ & _ & Hsc' & _ & _ & _ & _
        & Hw & _ & _ & _ & _ & Hwd & _).
  assert (names' = names) as -> by congruence.
  pose proof (sample_entry _ _ _ _ _ _ _ Hloop Hsc Hsec Hsample Hret) as Hin.
  rewrite (width_under_mask _ _ _ _ _ Hloop Hsc Hlast Hc) in Hw.
  unfold flag_after in Hin. rewrite Hbefore in Hin.
  unfold kept_readouts in Hin. simpl in Hin.
  destruct Hwd as [Hnil|Hwd];
    [rewrite Hnil in Hin; by apply elem_of_nil in Hin|].
  apply width_ge in Hin. rewrite length_app, length_take in Hin.
  apply bool_decide_eq_true_1, lookup_lt_Some in Hsample. lia.
Qed.

Lemma sample_row_before_ColCheck_can_break_parse_witness :
  exists e, readAdat true true Samples.late_ColCheck = Raise e.
Proof.
  apply (sample_row_before_ColCheck_can_break_parse true
           (take 7 Samples.late_ColCheck)
           ["s1"; "Sample"; "PASS"; ""; "1.5"; "2.5"]
           (drop 8 Samples.late_ColCheck)
           ["SampleId"; "SampleType"; "RowCheck"] ["PASS"; "FAIL"]);
    try reflexivity.
  - done.
  - vm_compute. lia.
Defined.

(** ** Further properties: the command line *)

Lemma lstrip_suffix (s : Cli.text) : exists p, s = p ++ Cli.lstrip s.
Proof.
  induction s as [|c s [p IH]]; simpl; [by exists []|].
  destruct (Cli.is_whitespace c).
  - exists (c :: p). simpl. by rewrite <- IH.
  - by exists [].
Qed.

Lemma lstrip_head (s : Cli.text) c :
  head (Cli.lstrip s) = Some c -> Cli.is_whitespace c = false.
Proof.
  induction s as [|d s IH]; simpl; [done|].
  destruct (Cli.is_whitespace d) eqn:Hd; [done|]. simpl. by intros [= <-].
Qed.

Lemma lstrip_id (s : Cli.text) :
  (forall c, head s = Some c -> Cli.is_whitespace c = false) ->
  Cli.lstrip s = s.
Proof.
  destruct s as [|c s]; simpl; [done|]. intros H. by rewrite (H c eq_refl).
Qed.

Lemma head_rev_suffix (x p y : Cli.text) c :
  (forall d, head x = Some d -> Cli.is_whitespace d = false) ->
  rev x = p ++ y ->
  head (rev y) = Some c -> Cli.is_whitespace c = false.
Proof.
  intros Hx Hrev Hc. apply Hx.
  assert (x = rev y ++ rev p) as ->.
  { rewrite <- (rev_involutive x), Hrev. by rewrite rev_app_distr. }
  destruct (rev y); [done|]. exact Hc.
Qed.

Lemma strip_head (s : Cli.text) c :
  head (Cli.strip s) = Some c -> Cli.is_whitespace c = false.
Proof.
  unfold Cli.strip.
  destruct (lstrip_suffix (rev (Cli.lstrip s))) as [p Hp].
  apply (head_rev_suffix (Cli.lstrip s) p); [|done].
  apply lstrip_head.
Qed.

Lemma strip_idempotent (s : Cli.text) : Cli.strip (Cli.strip s) = Cli.strip s.
Proof.
  unfold Cli.strip at 1.
  rewrite (lstrip_id (Cli.strip s)) by apply strip_head.
  unfold Cli.strip. rewrite rev_involutive.
  rewrite (lstrip_id (Cli.lstrip _)); [done|]. apply lstrip_head.
Qed.

(** After [strip], [empty] holds only of the text of length zero: the
    test [not empty(x)] that [main] makes on a stripped argument is the
    test that the argument is not the empty string. *)
Theorem empty_of_stripped (s : Cli.text) :
  Cli.empty (Some (Cli.strip s)) = true <-> Cli.strip s = [].
Proof.
  split; [|by intros ->].
  simpl. intros H.
  destruct (Cli.strip s) as [|c t] eqn:Hs; [done|].
  simpl in H. apply andb_true_iff in H as [Hc _].
  assert (Cli.is_whitespace c = false) as Hn
    by (apply (strip_head s); by rewrite Hs).
  congruence.
Qed.

Lemma True_or_False_not_empty (s : Cli.text) :
  Cli.is_True_or_False s = true -> Cli.empty (Some s) = false.
Proof.
  unfold Cli.is_True_or_False. intros H.
  apply orb_true_iff in H as [H|H]; apply bool_decide_eq_true_1 in H;
    subst; reflexivity.
Qed.

Lemma readAdat_file_reached cr path kp ks :
  Cli.reached_reader (Cli.readAdat_file cr path kp ks) = true.
Proof.
  unfold Cli.readAdat_file.
  destruct (cr path) as [|rows broken]; [done|].
  destruct (loop kp ks init rows) as [st|e]; [|done].
  destruct broken; [done|]. by destruct (finalize kp st).
Qed.

(** [main] goes on to read the file exactly when a path was given that,
    stripped, is not empty and exists, and each of the two flags,
    stripped, is exactly "True" or "False"; otherwise it stops with
    AttributeError (no path) or AssertionError, whatever the file
    holds. *)
Theorem main_reaches_reader_iff path_exists csv_reader args :
  Cli.reached_reader (Cli.main path_exists csv_reader args) = true
  <-> exists path,
        Cli.adat_file args = Some path
        /\ Cli.strip path <> []
        /\ path_exists (Cli.strip path) = true
        /\ (Cli.strip (Cli.keepOnlyPasses args) = Cli.of_string "True"
            \/ Cli.strip (Cli.keepOnlyPasses args) = Cli.of_string "False")
        /\ (Cli.strip (Cli.keepOnlySamples args) = Cli.of_string "True"
            \/ Cli.strip (Cli.keepOnlySamples args) = Cli.of_string "False").
Proof.
  assert (forall s, Cli.is_True_or_False s = true
                    <-> s = Cli.of_string "True" \/ s = Cli.of_string "False")
    as Hflag.
  { intros s. unfold Cli.is_True_or_False.
    rewrite orb_true_iff, !bool_decide_eq_true. done. }
  unfold Cli.main. destruct (Cli.adat_file args) as [path|]; simpl.
  2:{ split; [done | by intros (? & ? & _)]. }
  pose proof (empty_of_stripped path) as Hpath. simpl in Hpath.
  split.
  - intros H. exists path. split; [done|].
    destruct (forallb Cli.is_whitespace (Cli.strip path)) eqn:He;
      simpl in H; [done|].
    destruct (path_exists (Cli.strip path)) eqn:Hex; simpl in H; [|done].
    destruct (Cli.is_True_or_False (Cli.strip (Cli.keepOnlyPasses args)))
      eqn:Hp; [|by rewrite andb_false_r in H].
    pose proof (True_or_False_not_empty _ Hp) as Hp'. simpl in Hp'.
    rewrite Hp' in H. simpl in H.
    destruct (Cli.is_True_or_False (Cli.strip (Cli.keepOnlySamples args)))
      eqn:Hs; [|by rewrite andb_false_r in H].
    repeat split; try done; try (by apply Hflag).
    intros Hnil. apply Hpath in Hnil. congruence.
  - intros (p & [= <-] & Hne & Hex & Hp & Hs).
    apply Hflag in Hp, Hs.
    assert (forallb Cli.is_whitespace (Cli.strip path) = false) as He.
    { apply not_true_is_false. intros He. by apply Hpath in He. }
    rewrite He, Hex, Hp, Hs. simpl.
    pose proof (True_or_False_not_empty _ Hp) as Hp'.
    pose proof (True_or_False_not_empty _ Hs) as Hs'.
    simpl in Hp', Hs'. rewrite Hp', Hs'. simpl.
    apply readAdat_file_reached.
Qed.

(** White space around the three arguments is ignored: [main] ends the
    same way on the arguments as given and on the stripped ones. *)
Theorem main_ignores_surrounding_space path_exists csv_reader args :
  Cli.main path_exists csv_reader (Cli.stripped args)
  = Cli.main path_exists csv_reader args.
Proof.
  unfold Cli.main, Cli.stripped. simpl.
  destruct (Cli.adat_file args) as [path|]; simpl; [|done].
  by rewrite !strip_idempotent.
Qed.

(** When the arguments are accepted and the file is read to its end,
    [main] prints what [readAdat] returns for the rows of the file, read
    with keepOnlyPasses (keepOnlySamples) set exactly when the flag is
    "True", and ends with the reader's exception when it raises one. *)
Theorem main_prints_readAdat path_exists csv_reader args path rows :
  Cli.reached_reader (Cli.main path_exists csv_reader args) = true ->
  Cli.adat_file args = Some path ->
  csv_reader (Cli.strip path) = Cli.Rows rows false ->
  Cli.main path_exists csv_reader args
  = match readAdat
            (bool_decide (Cli.strip (Cli.keepOnlyPasses args)
                          = Cli.of_string "True"))
            (bool_decide (Cli.strip (Cli.keepOnlySamples args)
                          = Cli.of_string "True"))
            rows with
    | Ok adat => Cli.Printed adat
    | Raise e => Cli.ReaderRaised e
    end.
Proof.
  intros Hreach Hpath Hrows. revert Hreach.
  unfold Cli.main. rewrite Hpath.
  destruct (negb _); [done|]. destruct (negb _); [done|].
  destruct (negb _); [done|]. intros _.
  unfold Cli.readAdat_file, readAdat. rewrite Hrows.
  by destruct (loop _ _ init rows).
Qed.

Lemma main_prints_readAdat_witness :
  exists adat,
    readAdat true false Samples.minimal = Ok adat
    /\ Cli.main (fun _ => true) (fun _ => Cli.Rows Samples.minimal false)
         {| Cli.adat_file := Some (Cli.of_string " demo.adat ");
            Cli.keepOnlyPasses := Cli.of_string "True";
            Cli.keepOnlySamples := Cli.of_string " False" |}
       = Cli.Printed adat.
Proof.
  eexists.
  assert (readAdat true false Samples.minimal = Ok _) as H
    by (vm_compute; reflexivity).
  split; [exact H|].
  rewrite (main_prints_readAdat (fun _ => true)
             (fun _ => Cli.Rows Samples.minimal false)
             {| Cli.adat_file := Some (Cli.of_string " demo.adat ");
                Cli.keepOnlyPasses := Cli.of_string "True";
                Cli.keepOnlySamples := Cli.of_string " False" |}
             (Cli.of_string " demo.adat ") Samples.minimal);
    [| vm_compute; reflexivity | reflexivity | reflexivity].
  change (bool_decide (Cli.strip (Cli.keepOnlyPasses _) = _)) with true.
  change (bool_decide (Cli.strip (Cli.keepOnlySamples _) = _)) with false.
  by rewrite H.
Defined.

(** ** The protein columns of the two tables *)

(** C4: on success the column labels of the sample table that follow the
    sample-annotation fields are, in order, the column labels of the
    sequence table, and each is "SeqId." followed by the corresponding
    value of the file's column-annotation row labelled "SeqId": the
    values of that row, those at mask-true positions when keepOnlyPasses
    applies, taken in order.  The file has such a row, and the sequence
    table shows these values in its row labelled "SeqId". *)
Theorem protein_columns_agree kp ks rows res :
  readAdat kp ks rows = Ok res ->
  exists names s d ids,
    schema_of rows = Some names
    /\ SampleAnnotNames res = Some names
    /\ SequenceData res = Some s
    /\ SampleAndIntensityData res = Some d
    /\ df_columns d = map VStr names ++ df_columns s
    /\ drop (length names) (df_columns d) = df_columns s
    /\ df_columns s = map (fun v => VStr ("SeqId." +:+ v)) ids
    /\ (exists i, df_index s !! i = Some (VStr "SeqId"))
    /\ (forall i, df_index s !! i = Some (VStr "SeqId") ->
          row_at s i = map VStr ids)
    /\ (exists v, ("SeqId", v) ∈ col_rows names (table_section rows))
    /\ forall v, ("SeqId", v) ∈ col_rows names (table_section rows) ->
         ids = if kp
               then under_mask
                      (last_labelled "ColCheck"
                         (col_rows names (table_section rows))) v
               else v.
Proof.
  intros H.
  apply readAdat_Ok_tables in H
    as (st & a & d & names & ids & Hloop & _ & _ & Hsc & Hn & Hs & Hd & Hids
        & Hw & (i0 & Hi0) & Hall & Hsdf & _ & _ & _ & Hcols).
  destruct (loop_init _ _ _ _ Hloop) as (_ & _ & Htab).
  destruct (Htab names Hsc) as (Hidx & _).
  pose proof (filtered_rows _ _ _ _ _ Hloop Hsc) as Hfil.
  exists names, (a_sequenceData a), d, ids.
  rewrite Hsdf. simpl. rewrite Hcols, map_app.
  repeat split; try done; try congruence.
  - rewrite drop_app_length'; [done | by rewrite length_map].
  - rewrite Hids, map_map. done.
  - exists i0. by rewrite list_lookup_fmap, Hi0.
  - intros i Hi. rewrite list_lookup_fmap in Hi.
    destruct (sequenceDataIndex st !! i) as [x|] eqn:Hx; [|done].
    simpl in Hi. injection Hi as ->.
    rewrite row_at_columns_of_rows, (Hall i Hx).
    change (fun j => cell_of ids j) with (cell_of ids).
    rewrite cells_of_row by lia. by rewrite drop_0.
  - rewrite Hidx in Hi0. change (map ?f ?l) with (f <$> l) in Hi0.
    rewrite list_lookup_fmap in Hi0.
    destruct (col_rows names (table_section rows) !! i0) as [[l v]|] eqn:Hc;
      [|done].
    simpl in Hi0. injection Hi0 as ->. exists v.
    by eapply list_elem_of_lookup_2.
  - intros v Hv. apply col_rows_lookup in Hv as (i & Hi & Hvi).
    rewrite <- Hidx in Hi. apply Hall in Hi.
    rewrite Hfil in Hi. change (map ?f ?l) with (f <$> l) in Hi.
    rewrite list_lookup_fmap, Hvi in Hi. simpl in Hi. congruence.
Qed.

Lemma protein_columns_agree_witness :
  exists res names s d ids,
    readAdat true true Samples.minimal = Ok res
    /\ ids = ["10-1"]
    /\ schema_of Samples.minimal = Some names
    /\ SampleAnnotNames res = Some names
    /\ SequenceData res = Some s
    /\ SampleAndIntensityData res = Some d
    /\ df_columns d = map VStr names ++ df_columns s
    /\ drop (length names) (df_columns d) = df_columns s
    /\ df_columns s = map (fun v => VStr ("SeqId." +:+ v)) ids
    /\ (exists i, df_index s !! i = Some (VStr "SeqId"))
    /\ (forall i, df_index s !! i = Some (VStr "SeqId") ->
          row_at s i = map VStr ids)
    /\ (exists v, ("SeqId", v) ∈ col_rows names (table_section Samples.minimal))
    /\ forall v, ("SeqId", v) ∈ col_rows names (table_section Samples.minimal) ->
         ids = under_mask
                 (last_labelled "ColCheck"
                    (col_rows names (table_section Samples.minimal))) v.
Proof.
  eexists.
  assert (readAdat true true Samples.minimal = Ok _) as H
    by (vm_compute; reflexivity).
  destruct (protein_columns_agree true true Samples.minimal _ H)
    as (names & s & d & ids & Hsc & Hrest).
  exists names, s, d, ids. split; [exact H|]. split; [|exact (conj Hsc Hrest)].
  destruct Hrest as (_ & _ & _ & _ & _ & _ & _ & _ & _ & Hids).
  injection Hsc as <-.
  apply (Hids ["10-1"; "20-2"]). by left.
Defined.
